(** * Terraform-apply orchestrator: a shallow embedding

    The development follows the Go sources of the [cmd] package:
    - the task model and the cancellation watcher,
    - the snapshot model ([snapshotModel], its [Update] and [View]),
    - the apply orchestrator ([tfApplyModel], [NewTfApplyModel], [Init],
      [Update], [startStartChangeCmd]).

    Go values are modelled as follows: [string] for Go strings, [N] for
    [uint32] counters (they are only stored and printed, never computed
    with), [Z] for [int], [option (list string)] for a slice whose nil-ness
    matters ([exec.Cmd.Env]), an inductive type [Msg] for the dynamic types
    that travel through [tea.Msg], and an inductive type [Cmd] for the
    closures handed back to the event loop. *)

From Stdlib Require Import String Ascii List ZArith NArith Bool Lia.
From Stdlib Require Import Decimal DecimalString.
Import ListNotations.
Open Scope string_scope.

(** ** Errors, with the wrapping of [fmt.Errorf("...: %w", err)] *)

Inductive error : Type :=
| errNew (text : string)
| errWrap (prefix : string) (inner : error).



(** A Go call returning [(T, error)]. *)
Inductive result (T : Type) : Type :=
| Ok (v : T)
| Err (e : error).
Arguments Ok {T} v.
Arguments Err {T} e.

(** ** Opaque handles *)

Definition uuid := N.
Definition Context := N.
Definition OvermindInstance := string.

(** A [context.Context] value is known by a handle; the handle 0 is the
    nil interface value, which is what a [tfApplyModel] holds in [ctx]
    until a [loadSourcesConfigMsg] sets it. *)
Definition nilContext : Context := 0%N.
Definition isNilContext (c : Context) : bool := (c =? nilContext)%N.

(** ** [exec.Cmd] *)

Record ExecCmd : Type := mkExecCmd {
  cmdCtx : Context;
  cmdName : string;
  cmdArgs : list string;
  cmdEnv : option (list string)   (* nil slice = None *)
}.

(** [exec.CommandContext(ctx, name, args...)]: it panics with "nil
    Context" on a nil context ([None]); otherwise [Env] starts nil. *)
Definition CommandContext (ctx : Context) (name : string) (args : list string)
  : option ExecCmd :=
  if isNilContext ctx then None
  else Some (mkExecCmd ctx name (name :: args) None).

(** Go's [append(s, x)] on a possibly nil slice. *)
Definition goAppend (s : option (list string)) (x : string)
  : option (list string) :=
  match s with
  | None => Some [x]
  | Some l => Some (l ++ [x])%list
  end.

(** The environment of the child, as documented for [exec.Cmd.Env]: a nil
    [Env] makes the new process use the current process's environment;
    otherwise the entries of [Env] are the environment. *)
Definition childEnviron (parent : list string) (c : ExecCmd) : list string :=
  match cmdEnv c with
  | None => parent
  | Some e => e
  end.

(** ** Messages: the dynamic types seen through [tea.Msg] *)

Inductive Msg : Type :=
| WindowSizeMsg (width height : Z)
| KeyMsg (key : string)
| loadSourcesConfigMsg (ctx : Context) (oi : OvermindInstance)
| revlinkWarmupFinishedMsg
| runPlanFinishedMsg
| submitPlanNowMsg
| submitPlanFinishedMsg
| startStartingSnapshotMsg
| changeIdentifiedMsg (u : uuid)
| startSnapshotMsg (id : Z) (newState : string)
| progressSnapshotMsg (id : Z) (newState : string) (items edges : N)
| finishSnapshotMsg (id : Z) (newState : string) (items edges : N)
| runTfApplyMsg
| tfApplyFinishedMsg
| delayQuitMsg
| fatalError (id : Z) (err : error)
| otherError (id : Z) (err : error)
| teaQuit                         (* the value [tea.Quit] handed over as a message *)
| foreignMsg (tag : N).           (* any other dynamic type, e.g. a spinner tick *)

(** ** Commands: the closures returned to the event loop *)

Inductive Cmd : Type :=
| cmdNil
| cmdQuit                                        (* [tea.Quit] *)
| cmdForeign (owner : string) (code : N)         (* a collaborator's command *)
| cmdEmit (m : Msg)                              (* [func() tea.Msg { return m }] *)
| cmdBarrier (needPlan : bool)                   (* the closure of the two barrier cases *)
| cmdStartStartChange (ctx : Context) (oi : OvermindInstance)
                      (planFile : string) (snapshotID : Z)
| cmdWaitForStartingActivity
| cmdStartEndChange (ctx : Context) (oi : OvermindInstance)
                    (change : uuid) (snapshotID : Z)
| cmdWaitForEndingActivity
| cmdExecProcess (c : ExecCmd) (callback : option error -> Msg)
| cmdPanicked (reason : string).
  (* not a command: [Update] did not return, the call panicked; the
     program ends there *)

Definition isNilCmd (c : Cmd) : bool :=
  match c with cmdNil => true | _ => false end.

(** [tea.Batch(cmds...)]: nil commands are dropped; the remaining ones are
    all run. The batch is kept as the list of its commands. *)
Definition Batch (cmds : list Cmd) : list Cmd :=
  filter (fun c => negb (isNilCmd c)) cmds.

(** What running the barrier closure returns. *)
Definition barrierMsg (needPlan : bool) : Msg :=
  if needPlan then submitPlanNowMsg else startStartingSnapshotMsg.

(** ** Task model *)

Inductive taskStatus : Type :=
| taskStatusPending
| taskStatusRunning
| taskStatusDone
| taskStatusError
| taskStatusSkipped.

(** [spinner.Model] of the bubbles library: its identity and what it
    currently shows. *)
Record spinnerModel : Type := mkSpinner {
  spinnerID : Z;
  spinnerFrame : string
}.

Record taskModel : Type := mkTask {
  status : taskStatus;
  title : string;
  spinner : spinnerModel
}.

(** A command owned by a collaborator (spinner tick, plan task, submit
    task): nil, or one of its own closures, known here by a code only. *)
Definition liftForeign (owner : string) (c : option N) : Cmd :=
  match c with
  | None => cmdNil
  | Some code => cmdForeign owner code
  end.

(** What the program takes from outside the source files at hand. *)
Class Collaborators : Type := {
  (* bubbles spinner: [Update] and the code of its [Tick] closure *)
  spinnerUpdate : spinnerModel -> Msg -> spinnerModel * option N;
  spinnerTick : spinnerModel -> N;
  spinnerInitialFrame : string;
  (* plan and submit tasks *)
  runPlanModel : Type;
  submitPlanModel : Type;
  NewRunPlanModel : list string -> string -> runPlanModel;
  NewSubmitPlanModel : string -> submitPlanModel;
  runPlanInit : runPlanModel -> option N;
  submitPlanInit : submitPlanModel -> option N;
  runPlanUpdate : runPlanModel -> Msg -> runPlanModel * option N;
  submitPlanUpdate : submitPlanModel -> Msg -> submitPlanModel * option N;
  planArgsFromApplyArgs : list string -> list string;
  (* configuration: [viper.GetString] *)
  viperGetString : string -> string;
  (* protobuf: the name of the zero value of the response state enum,
     which the nil-safe getters return on a nil response *)
  zeroStateName : string
}.

(** [fmt.Sprintf("%d", n)] for an unsigned counter. *)
Definition fmtD (n : N) : string := NilZero.string_of_uint (N.to_uint n).

Section Model.
Context `{C : Collaborators}.

(** *** Cancellation watcher *)

(** Which case of the [select] was taken. *)
Inductive wakeup : Type :=
| sigFired      (* [case <-sigs:] *)
| ctxDone.      (* [case <-ctx.Done():] *)

(** The closure returned by [waitForCancellation]: how many times it
    called [cancel], and the message it returns. *)
Definition waitForCancellation (w : wakeup) : nat * Msg :=
  match w with
  | sigFired => (1, teaQuit)
  | ctxDone => (0, teaQuit)
  end.

(** The [select] of the closure: [sig] says that a signal is waiting on
    [sigs], [done] that [ctx.Done()] is closed. With neither the closure
    blocks ([None]); with both Go takes either case, here the one named
    by [choice]. *)
Definition selectCase (choice : wakeup) (sig done : bool) : option wakeup :=
  match sig, done with
  | false, false => None
  | true, false => Some sigFired
  | false, true => Some ctxDone
  | true, true => Some choice
  end.

(** The closure run in a world: what it returns once it returns. *)
Definition runWatcher (choice : wakeup) (sig done : bool)
  : option (nat * Msg) :=
  match selectCase choice sig done with
  | None => None
  | Some w => Some (waitForCancellation w)
  end.

(** *** [taskModel] *)

(** [spinner.New] draws a fresh identity from a global counter; the caller
    passes the one drawn. *)
Definition NewTaskModel (id : Z) (t : string) : taskModel :=
  mkTask taskStatusPending t (mkSpinner id spinnerInitialFrame).

Definition taskInit (m : taskModel) : Cmd :=
  match status m with
  | taskStatusRunning => cmdForeign "spinner" (spinnerTick (spinner m))
  | _ => cmdNil
  end.

Definition isKeyMsg (msg : Msg) : option string :=
  match msg with KeyMsg k => Some k | _ => None end.

Definition taskUpdate (m : taskModel) (msg : Msg) : taskModel * Cmd :=
  match isKeyMsg msg with
  | Some k => if String.eqb k "q" then (m, cmdQuit) else (m, cmdNil)
  | None =>
      match status m with
      | taskStatusRunning =>
          let '(sp, cmd) := spinnerUpdate (spinner m) msg in
          (mkTask (status m) (title m) sp, liftForeign "spinner" cmd)
      | _ => (m, cmdNil)
      end
  end.

(** In the running case the source pads a local copy [v] of the spinner's
    view and then formats [m.spinner.View()] itself, so the padding has no
    effect on the result. The [default] case of the source is for status
    values outside the five constants, which [taskStatus] does not have. *)
Definition taskView (m : taskModel) : string :=
  match status m with
  | taskStatusPending => "⏳ " ++ title m
  | taskStatusRunning => spinnerFrame (spinner m) ++ " " ++ title m
  | taskStatusDone => "✅ " ++ title m
  | taskStatusError => "⛔️ " ++ title m
  | taskStatusSkipped => "-- " ++ title m
  end.

(** *** [snapshotModel] *)

Record snapshotModel : Type := mkSnapshot {
  task : taskModel;       (* the embedded [taskModel] *)
  state : string;
  items : N;
  edges : N
}.

Definition NewSnapShotModel (id : Z) (t : string) : snapshotModel :=
  mkSnapshot (NewTaskModel id t) "pending" 0 0.

Definition snapshotInit (m : snapshotModel) : Cmd := taskInit (task m).

Definition snapshotUpdate (m : snapshotModel) (msg : Msg)
  : snapshotModel * Cmd :=
  match msg with
  | startSnapshotMsg _ newState =>
      (mkSnapshot (task m) newState (items m) (edges m), cmdNil)
  | progressSnapshotMsg _ newState i e =>
      (mkSnapshot (task m) newState i e, cmdNil)
  | finishSnapshotMsg _ newState i e =>
      (mkSnapshot (task m) newState i e, cmdNil)
  | _ =>
      let '(t, cmd) := taskUpdate (task m) msg in
      (mkSnapshot t (state m) (items m) (edges m), cmd)
  end.

Definition snapshotView (m : snapshotModel) : string :=
  if (items m =? 0)%N && (edges m =? 0)%N then
    taskView (task m) ++ " - " ++ state m
  else if (items m =? 1)%N && (edges m =? 0)%N then
    taskView (task m) ++ " - " ++ state m ++ ": 1 item"
  else if (items m =? 1)%N && (edges m =? 1)%N then
    taskView (task m) ++ " - " ++ state m ++ ": 1 item, 1 edge"
  else if (1 <? items m)%N && (edges m =? 0)%N then
    taskView (task m) ++ " - " ++ state m ++ ": " ++ fmtD (items m) ++ " items"
  else if (1 <? items m)%N && (edges m =? 1)%N then
    taskView (task m) ++ " - " ++ state m ++ ": " ++ fmtD (items m)
      ++ " items, 1 edge"
  else
    taskView (task m) ++ " - " ++ state m ++ ": " ++ fmtD (items m)
      ++ " items, " ++ fmtD (edges m) ++ " edges".

(** Modelled from the spec: the three message constructors of the snapshot
    ([StartMsg], [ProgressMsg], [FinishMsg]) are called by the orchestrator
    but are not among the sources at hand. Each event carries the identity
    token of the snapshot it addresses, together with the phase label and,
    for progress and finish, the two counters. *)
Definition StartMsg (m : snapshotModel) (newState : string) : Msg :=
  startSnapshotMsg (spinnerID (spinner (task m))) newState.

Definition ProgressMsg (m : snapshotModel) (newState : string) (i e : N) : Msg :=
  progressSnapshotMsg (spinnerID (spinner (task m))) newState i e.

Definition FinishMsg (m : snapshotModel) (newState : string) (i e : N) : Msg :=
  finishSnapshotMsg (spinnerID (spinner (task m))) newState i e.

(** The state of a snapshot that its view shows. *)
Definition visibleState (m : snapshotModel) : string * N * N * taskStatus :=
  (state m, items m, edges m, status (task m)).

(** *** The apply orchestrator *)

Record tfApplyModel : Type := mkTfApply {
  ctx : Context;
  oi : OvermindInstance;
  args : list string;
  planFile : string;
  needPlan : bool;
  runPlanTask : runPlanModel;
  runPlanFinished : bool;
  revlinkWarmupFinished : bool;
  submitPlanTask : submitPlanModel;
  processingHeader : string;
  needApproval : bool;
  changeUuid : uuid;
  isStarting : bool;
  startingChangeSnapshot : snapshotModel;
  runTfApply : bool;
  isEnding : bool;
  endingChangeSnapshot : snapshotModel;
  progress : list string;
  width : Z
}.

(** The operating system as [NewTfApplyModel] sees it. *)
Record OS : Type := mkOS {
  (* [os.Stat(name)]: [None] on error, else [Some isDir] *)
  osStat : string -> option bool;
  (* [os.CreateTemp("", "overmind-plan")]: the name of the new file *)
  osCreateTemp : result string
}.

Definition eatingFlags : list string :=
  ["-backup"; "--backup"; "-state"; "--state"; "-state-out"; "--state-out"].

(** The body of the loop over [eatingFlags]: does [prev] take the next
    argument as its value? *)
Definition eatsNext (prev : string) : bool :=
  existsb (fun a => String.eqb prev a || String.prefix (a ++ "=") prev)
          eatingFlags.

(** [args[len(args)-1]] and [args[len(args)-2]], read only under the
    length guards of the source. *)
Definition lastArg (a : list string) : string := last a "".
Definition prevArg (a : list string) : string :=
  nth (length a - 2) a "".

(** The first part of [NewTfApplyModel]: is the last argument the plan? *)
Definition hasPlanSet (os : OS) (a : list string) : bool :=
  if (1 <=? length a)%nat then
    match osStat os (lastArg a) with
    | Some false =>
        if (2 <=? length a)%nat then negb (eatsNext (prevArg a)) else true
    | _ => false
    end
  else false.

(** One round of the loop that scans for the auto-approve flags. *)
Definition autoapproveStep (acc : bool) (a : string) : bool :=
  let acc1 :=
    if String.eqb a "-auto-approve" || String.eqb a "-auto-approve=true"
       || String.eqb a "-auto-approve=TRUE" || String.eqb a "--auto-approve"
       || String.eqb a "--auto-approve=true" || String.eqb a "--auto-approve=TRUE"
    then true else acc in
  if String.eqb a "-auto-approve=false" || String.eqb a "-auto-approve=FALSE"
     || String.eqb a "--auto-approve=false" || String.eqb a "--auto-approve=FALSE"
  then false else acc1.

(** [strings.Join(l, sep)] *)
Definition join (sep : string) (l : list string) : string := String.concat sep l.

Definition newline : string := String (ascii_of_nat 10) EmptyString.

Definition mkProcessingHeader (a : list string) : string :=
  "# Applying Changes" ++ newline ++ newline
  ++ "Applying changes with `terraform " ++ join " " a ++ "`" ++ newline.

(** [NewTfApplyModel(args)]. The two snapshots draw the spinner identities
    [sid] and [eid]. When the temporary file cannot be created the source
    calls [log.Fatal], which ends the process: the error is returned. The
    model is returned together with the arguments given to the plan task. *)
Definition NewTfApplyModel (os : OS) (sid eid : Z) (a : list string)
  : result (tfApplyModel * list string) :=
  let hasPlan := hasPlanSet os a in
  let planFile0 := if hasPlan then lastArg a else "overmind.plan" in
  let autoapprove0 := hasPlan in
  let planArgs0 := "plan" :: planArgsFromApplyArgs a in
  let build (planFile : string) (planArgs a1 : list string) (autoapprove : bool) :=
    let a2 := "apply" :: a1 in
    (mkTfApply
       0%N ""
       a2
       planFile
       (negb hasPlan)
       (NewRunPlanModel planArgs planFile)
       hasPlan
       false
       (NewSubmitPlanModel planFile)
       (mkProcessingHeader a2)
       (negb autoapprove)
       0%N
       false
       (NewSnapShotModel sid "Starting Change")
       false
       false
       (NewSnapShotModel eid "Ending Change")
       []
       0%Z,
     planArgs) in
  if hasPlan then
    Ok (build planFile0 planArgs0 a autoapprove0)
  else
    match osCreateTemp os with
    | Err e => Err e
    | Ok tmp =>
        let planArgs := (planArgs0 ++ ["-out"; tmp])%list in
        let a1 := (a ++ [tmp])%list in
        Ok (build tmp planArgs a1 (fold_left autoapproveStep a1 autoapprove0))
    end.

Definition Init (m : tfApplyModel) : list Cmd :=
  let cmds :=
    if needPlan m then
      [liftForeign "runPlan" (runPlanInit (runPlanTask m));
       liftForeign "submitPlan" (submitPlanInit (submitPlanTask m))]
    else [] in
  Batch cmds.

Definition startStartChangeCmd (m : tfApplyModel) : Cmd :=
  cmdStartStartChange (ctx m) (oi m) (planFile m)
    (spinnerID (spinner (task (startingChangeSnapshot m)))).

Definition startEndChangeCmd (m : tfApplyModel) : Cmd :=
  cmdStartEndChange (ctx m) (oi m) (changeUuid m)
    (spinnerID (spinner (task (endingChangeSnapshot m)))).

(** The callback given to [tea.ExecProcess]. *)
Definition tfApplyCallback (err : option error) : Msg :=
  match err with
  | Some e => fatalError 0 (errWrap "failed to run terraform apply: " e)
  | None => tfApplyFinishedMsg
  end.

(** The command built in the [runTfApplyMsg] case. *)
Definition tfApplyExecCmd (m : tfApplyModel) : option ExecCmd :=
  match CommandContext (ctx m) "terraform" (args m) with
  | None => None
  | Some c =>
      let aws_profile := viperGetString "aws-profile" in
      if String.eqb aws_profile "" then Some c
      else Some (mkExecCmd (cmdCtx c) (cmdName c) (cmdArgs c)
                   (goAppend (cmdEnv c) ("AWS_PROFILE=" ++ aws_profile)))
  end.

Definition startID (m : tfApplyModel) : Z :=
  spinnerID (spinner (task (startingChangeSnapshot m))).
Definition endID (m : tfApplyModel) : Z :=
  spinnerID (spinner (task (endingChangeSnapshot m))).

(** The routing shared by the start, progress and finish cases. *)
Definition routeWait (m : tfApplyModel) (id : Z) : list Cmd :=
  if (id =? startID m)%Z then [cmdWaitForStartingActivity]
  else if (id =? endID m)%Z then [cmdWaitForEndingActivity]
  else [].

(** The [switch] of [Update], for every message but [runTfApplyMsg], which
    returns early: the model after the case and the commands appended. *)
Definition updateSwitch (m : tfApplyModel) (msg : Msg)
  : tfApplyModel * list Cmd :=
  let set_flags (rpf rwf : bool) :=
    mkTfApply (ctx m) (oi m) (args m) (planFile m) (needPlan m) (runPlanTask m)
      rpf rwf (submitPlanTask m) (processingHeader m) (needApproval m)
      (changeUuid m) (isStarting m) (startingChangeSnapshot m) (runTfApply m)
      (isEnding m) (endingChangeSnapshot m) (progress m) (width m) in
  let set_phase (u : uuid) (st rt en : bool) :=
    mkTfApply (ctx m) (oi m) (args m) (planFile m) (needPlan m) (runPlanTask m)
      (runPlanFinished m) (revlinkWarmupFinished m) (submitPlanTask m)
      (processingHeader m) (needApproval m)
      u st (startingChangeSnapshot m) rt en (endingChangeSnapshot m)
      (progress m) (width m) in
  match msg with
  | WindowSizeMsg w _ =>
      (mkTfApply (ctx m) (oi m) (args m) (planFile m) (needPlan m)
         (runPlanTask m) (runPlanFinished m) (revlinkWarmupFinished m)
         (submitPlanTask m) (processingHeader m) (needApproval m)
         (changeUuid m) (isStarting m) (startingChangeSnapshot m)
         (runTfApply m) (isEnding m) (endingChangeSnapshot m) (progress m) w,
       [])
  | loadSourcesConfigMsg c o =>
      (mkTfApply c o (args m) (planFile m) (needPlan m)
         (runPlanTask m) (runPlanFinished m) (revlinkWarmupFinished m)
         (submitPlanTask m) (processingHeader m) (needApproval m)
         (changeUuid m) (isStarting m) (startingChangeSnapshot m)
         (runTfApply m) (isEnding m) (endingChangeSnapshot m) (progress m)
         (width m),
       [])
  | revlinkWarmupFinishedMsg =>
      (set_flags (runPlanFinished m) true,
       if runPlanFinished m then [cmdBarrier (needPlan m)] else [])
  | runPlanFinishedMsg =>
      (set_flags true (revlinkWarmupFinished m),
       if revlinkWarmupFinished m then [cmdBarrier (needPlan m)] else [])
  | submitPlanFinishedMsg => (m, [cmdEmit startStartingSnapshotMsg])
  | startStartingSnapshotMsg =>
      let m1 := set_phase (changeUuid m) true (runTfApply m) (isEnding m) in
      (m1, [snapshotInit (startingChangeSnapshot m1);
            startStartChangeCmd m1;
            cmdWaitForStartingActivity])
  | changeIdentifiedMsg u =>
      (set_phase u (isStarting m) (runTfApply m) (isEnding m),
       [cmdWaitForStartingActivity])
  | startSnapshotMsg id _ => (m, routeWait m id)
  | progressSnapshotMsg id _ _ _ => (m, routeWait m id)
  | finishSnapshotMsg id _ _ _ =>
      if (id =? startID m)%Z then
        (set_phase (changeUuid m) false true (isEnding m),
         [cmdEmit runTfApplyMsg])
      else if (id =? endID m)%Z then (m, [cmdEmit delayQuitMsg])
      else (m, [])
  | tfApplyFinishedMsg =>
      let m1 := set_phase (changeUuid m) (isStarting m) (runTfApply m) true in
      (m1, [snapshotInit (endingChangeSnapshot m1);
            startEndChangeCmd m1;
            cmdWaitForEndingActivity])
  | _ => (m, [])
  end.

(** The tail of [Update], after the [switch]: the message is handed to both
    snapshots and, when a plan is needed, to the plan and submit tasks. *)
Definition updateChildren (m : tfApplyModel) (msg : Msg) (cmds : list Cmd)
  : tfApplyModel * list Cmd :=
  let '(s1, c1) := snapshotUpdate (startingChangeSnapshot m) msg in
  let '(e1, c2) := snapshotUpdate (endingChangeSnapshot m) msg in
  let cmds2 := (cmds ++ [c1; c2])%list in
  if needPlan m then
    let '(rp, c3) := runPlanUpdate (runPlanTask m) msg in
    let '(sp, c4) := submitPlanUpdate (submitPlanTask m) msg in
    (mkTfApply (ctx m) (oi m) (args m) (planFile m) (needPlan m) rp
       (runPlanFinished m) (revlinkWarmupFinished m) sp (processingHeader m)
       (needApproval m) (changeUuid m) (isStarting m) s1 (runTfApply m)
       (isEnding m) e1 (progress m) (width m),
     (cmds2 ++ [liftForeign "runPlan" c3; liftForeign "submitPlan" c4])%list)
  else
    (mkTfApply (ctx m) (oi m) (args m) (planFile m) (needPlan m)
       (runPlanTask m) (runPlanFinished m) (revlinkWarmupFinished m)
       (submitPlanTask m) (processingHeader m) (needApproval m) (changeUuid m)
       (isStarting m) s1 (runTfApply m) (isEnding m) e1 (progress m) (width m),
     cmds2).

(** [tfApplyModel.Update]. The tracing span opened in the [runTfApplyMsg]
    case only observes; it is left out. In that case
    [exec.CommandContext] panics when [m.ctx] is still nil: [Update] then
    does not return, which the result records as [cmdPanicked]. *)
Definition Update (m : tfApplyModel) (msg : Msg) : tfApplyModel * list Cmd :=
  match msg with
  | runTfApplyMsg =>
      match tfApplyExecCmd m with
      | Some c => (m, [cmdExecProcess c tfApplyCallback])
      | None => (m, [cmdPanicked "nil Context"])
      end
  | _ =>
      let '(m1, cmds) := updateSwitch m msg in
      let '(m2, cmds2) := updateChildren m1 msg cmds in
      (m2, Batch cmds2)
  end.

(** *** The start-change worker *)

(** One message of the [StartChange] stream, as read through its getters:
    [GetState().String()], [GetNumItems()], [GetNumEdges()]. *)
Record StartChangeResponse : Type := mkResponse {
  respState : string;
  respNumItems : N;
  respNumEdges : N
}.

(** What the getters return on the nil response. *)
Definition nilResponse : StartChangeResponse := mkResponse zeroStateName 0 0.

(** A server stream: the messages [Receive] delivers before it returns
    false, and what [Err] says afterwards. *)
Record ServerStream : Type := mkStream {
  streamMsgs : list StartChangeResponse;
  streamErr : option error
}.

(** The remote side and the plan parser, as the worker calls them. *)
Record ChangeService : Type := mkService {
  getTicketLinkFromPlan : string -> result string;
  getChangeUuid : Context -> OvermindInstance -> string -> result uuid;
  StartChange : Context -> OvermindInstance -> uuid -> result ServerStream
}.

(** The first lines of the closure: the ticket link comes from the
    configuration and, when that is empty, from the plan file. *)
Definition resolveTicketLink (svc : ChangeService) (m : tfApplyModel)
  : result string :=
  let ticketLink := viperGetString "ticket-link" in
  if String.eqb ticketLink "" then getTicketLinkFromPlan svc (planFile m)
  else Ok ticketLink.

(** The progress events sent for the messages of a stream. *)
Definition progressOf (m : tfApplyModel) (rs : list StartChangeResponse)
  : list Msg :=
  map (fun r => ProgressMsg (startingChangeSnapshot m)
                  (respState r) (respNumItems r) (respNumEdges r)) rs.

(** The closure returned by [startStartChangeCmd], run against a service:
    the messages it sends on [m.startingChange], in order, and the message
    it returns. *)
Definition runStartChange (svc : ChangeService) (m : tfApplyModel)
  : list Msg * Msg :=
  match resolveTicketLink svc m with
  | Err e => ([], fatalError 0 e)
  | Ok ticketLink =>
      match getChangeUuid svc (ctx m) (oi m) ticketLink with
      | Err e => ([], fatalError 0 (errWrap "failed to identify change: " e))
      | Ok u =>
          let sent0 :=
            [changeIdentifiedMsg u;
             StartMsg (startingChangeSnapshot m) "starting"] in
          match StartChange svc (ctx m) (oi m) u with
          | Err e => (sent0, fatalError 0 (errWrap "failed to start change: " e))
          | Ok stream =>
              let sent := (sent0 ++ progressOf m (streamMsgs stream))%list in
              match streamErr stream with
              | Some e =>
                  (sent,
                   fatalError 0 (errWrap "failed to process start change: " e))
              | None =>
                  let r := last (streamMsgs stream) nilResponse in
                  (sent,
                   FinishMsg (startingChangeSnapshot m)
                     (respState r) (respNumItems r) (respNumEdges r))
              end
          end
      end
  end.

(** *** Runs of the update loop *)

(** The loop hands the messages of [tr] to [Update] one after the other;
    each step is recorded as the model before it, the message, and the
    commands [Update] returned. *)
Fixpoint history (m : tfApplyModel) (tr : list Msg)
  : list (tfApplyModel * Msg * list Cmd) :=
  match tr with
  | [] => []
  | msg :: tr' =>
      let '(m', cmds) := Update m msg in
      (m, msg, cmds) :: history m' tr'
  end.

(** The model after the run. *)
Fixpoint runModel (m : tfApplyModel) (tr : list Msg) : tfApplyModel :=
  match tr with
  | [] => m
  | msg :: tr' => runModel (fst (Update m msg)) tr'
  end.

Definition issued (h : list (tfApplyModel * Msg * list Cmd)) : list Cmd :=
  flat_map snd h.

Definition countb {A : Type} (p : A -> bool) (l : list A) : nat :=
  length (filter p l).

Definition isBarrierCmd (c : Cmd) : bool :=
  match c with cmdBarrier _ => true | _ => false end.
Definition isExecProcess (c : Cmd) : bool :=
  match c with cmdExecProcess _ _ => true | _ => false end.
Definition isEmitRunTfApply (c : Cmd) : bool :=
  match c with cmdEmit runTfApplyMsg => true | _ => false end.
Definition isStartEndChange (c : Cmd) : bool :=
  match c with cmdStartEndChange _ _ _ _ => true | _ => false end.

(** The commands that the task models and the collaborators hand back:
    nil, [tea.Quit], or a closure of their own. *)
Definition inertCmd (c : Cmd) : bool :=
  match c with
  | cmdNil | cmdQuit | cmdForeign _ _ => true
  | _ => false
  end.

(** A test on commands that the inert ones never pass. *)
Definition quiet (p : Cmd -> bool) : Prop :=
  forall c, inertCmd c = true -> p c = false.

Definition isWarmup (msg : Msg) : bool :=
  match msg with revlinkWarmupFinishedMsg => true | _ => false end.
Definition isPlanDone (msg : Msg) : bool :=
  match msg with runPlanFinishedMsg => true | _ => false end.
Definition isRunTfApply (msg : Msg) : bool :=
  match msg with runTfApplyMsg => true | _ => false end.

Definition isChangeIdentified (msg : Msg) : bool :=
  match msg with changeIdentifiedMsg _ => true | _ => false end.
Definition isFinishMsg (msg : Msg) : bool :=
  match msg with finishSnapshotMsg _ _ _ _ => true | _ => false end.
Definition isProgressMsg (msg : Msg) : bool :=
  match msg with progressSnapshotMsg _ _ _ _ => true | _ => false end.
Definition isFatalError (msg : Msg) : bool :=
  match msg with fatalError _ _ => true | _ => false end.

(** A finish event addressed to the starting snapshot of [m]. *)
Definition isStartFinish (m : tfApplyModel) (msg : Msg) : bool :=
  match msg with
  | finishSnapshotMsg id _ _ _ => (id =? startID m)%Z
  | _ => false
  end.

(** The barrier closures a run has handed to the loop. *)
Definition barrierFires (h : list (tfApplyModel * Msg * list Cmd)) : list Cmd :=
  filter isBarrierCmd (issued h).

(** The barrier closures one message makes the switch append: one when the
    flag of the other completion message is already set. *)
Definition barrierStep (m : tfApplyModel) (msg : Msg) : list Cmd :=
  match msg with
  | revlinkWarmupFinishedMsg =>
      if runPlanFinished m then [cmdBarrier (needPlan m)] else []
  | runPlanFinishedMsg =>
      if revlinkWarmupFinished m then [cmdBarrier (needPlan m)] else []
  | _ => []
  end.

(** Subprocess launches, end-change workers started, and finish events of
    the start-change worker seen in a run. *)
Definition launches (h : list (tfApplyModel * Msg * list Cmd)) : nat :=
  countb isExecProcess (issued h).
Definition endInits (h : list (tfApplyModel * Msg * list Cmd)) : nat :=
  countb isStartEndChange (issued h).

(** Delivery discipline of the loop for the two messages that only its own
    commands produce: [runTfApplyMsg] is returned by the closure appended
    in the finish case, [tfApplyFinishedMsg] by the callback of the
    subprocess. [pa] and [pe] count the closures and subprocesses that
    have been handed out and have not delivered their message yet; a
    delivery uses one up. The result is the pair left at the end, or
    [None] when a message is delivered that no command could have sent. *)
Fixpoint pending (pa pe : nat) (h : list (tfApplyModel * Msg * list Cmd))
  : option (nat * nat) :=
  match h with
  | [] => Some (pa, pe)
  | (_, msg, cmds) :: h' =>
      let na := countb isEmitRunTfApply cmds in
      let ne := countb isExecProcess cmds in
      match msg with
      | runTfApplyMsg =>
          match pa with
          | O => None
          | S pa' => pending (pa' + na) (pe + ne) h'
          end
      | tfApplyFinishedMsg =>
          match pe with
          | O => None
          | S pe' => pending (pa + na) (pe' + ne) h'
          end
      | _ => pending (pa + na) (pe + ne) h'
      end
  end.

End Model.

(** ** The rest of the orchestrator *)

Section Lifecycle.
Context `{C : Collaborators}.

(** *** The end-change worker *)

(** One message of the [EndChange] stream, read through its getters. *)
Record EndChangeResponse : Type := mkEndResponse {
  endRespState : string;
  endRespNumItems : N;
  endRespNumEdges : N
}.

Record EndStream : Type := mkEndStream {
  endStreamMsgs : list EndChangeResponse;
  endStreamErr : option error
}.

(** The remote side as the end-change worker calls it, with the name of
    the zero value of its state enum. *)
Record EndChangeService : Type := mkEndService {
  EndChange : Context -> OvermindInstance -> uuid -> result EndStream;
  endZeroStateName : string
}.

Definition nilEndResponse (svc : EndChangeService) : EndChangeResponse :=
  mkEndResponse (endZeroStateName svc) 0 0.

Definition endProgressOf (m : tfApplyModel) (rs : list EndChangeResponse)
  : list Msg :=
  map (fun r => ProgressMsg (endingChangeSnapshot m)
                  (endRespState r) (endRespNumItems r) (endRespNumEdges r)) rs.

(** The closure returned by [startEndChangeCmd], run against a service:
    the messages it sends on [m.endingChange], in order, and the message
    it returns. [ctx], [oi] and [changeUuid] are the values the model held
    when the closure was made. *)
Definition runEndChange (svc : EndChangeService) (m : tfApplyModel)
  : list Msg * Msg :=
  let sent0 := [StartMsg (endingChangeSnapshot m) "ending"] in
  match EndChange svc (ctx m) (oi m) (changeUuid m) with
  | Err e => (sent0, fatalError 0 (errWrap "failed to end change: " e))
  | Ok stream =>
      let sent := (sent0 ++ endProgressOf m (endStreamMsgs stream))%list in
      match endStreamErr stream with
      | Some e =>
          (sent, fatalError 0 (errWrap "failed to process end change: " e))
      | None =>
          let r := last (endStreamMsgs stream) (nilEndResponse svc) in
          (sent,
           FinishMsg (endingChangeSnapshot m)
             (endRespState r) (endRespNumItems r) (endRespNumEdges r))
      end
  end.

(** *** Tests on commands and messages *)

Definition isQuitCmd (c : Cmd) : bool :=
  match c with cmdQuit => true | _ => false end.
Definition isWaitStart (c : Cmd) : bool :=
  match c with cmdWaitForStartingActivity => true | _ => false end.
Definition isWaitEnd (c : Cmd) : bool :=
  match c with cmdWaitForEndingActivity => true | _ => false end.
Definition isEmitDelayQuit (c : Cmd) : bool :=
  match c with cmdEmit delayQuitMsg => true | _ => false end.
Definition isStartStartChange (c : Cmd) : bool :=
  match c with cmdStartStartChange _ _ _ _ => true | _ => false end.

(** The messages on which [Update] arms a receive on the starting
    channel, and on the ending channel. *)
Definition armsStartWait (m : tfApplyModel) (msg : Msg) : bool :=
  match msg with
  | startStartingSnapshotMsg => true
  | changeIdentifiedMsg _ => true
  | startSnapshotMsg id _ => (id =? startID m)%Z
  | progressSnapshotMsg id _ _ _ => (id =? startID m)%Z
  | _ => false
  end.

Definition armsEndWait (m : tfApplyModel) (msg : Msg) : bool :=
  match msg with
  | tfApplyFinishedMsg => true
  | startSnapshotMsg id _ => negb (id =? startID m)%Z && (id =? endID m)%Z
  | progressSnapshotMsg id _ _ _ =>
      negb (id =? startID m)%Z && (id =? endID m)%Z
  | _ => false
  end.

(** A finish event that [Update] takes as the end of the ending phase. *)
Definition isEndFinish (m : tfApplyModel) (msg : Msg) : bool :=
  match msg with
  | finishSnapshotMsg id _ _ _ => negb (id =? startID m)%Z && (id =? endID m)%Z
  | _ => false
  end.

(** The last element of a run that [pick] selects, if any. *)
Definition lastPick {A B : Type} (pick : B -> option A) (tr : list B)
  : option A :=
  fold_left (fun acc x => match pick x with Some v => Some v | None => acc end)
            tr None.

Definition identifiedBy (msg : Msg) : option uuid :=
  match msg with changeIdentifiedMsg u => Some u | _ => None end.

Definition configOf (msg : Msg) : option (Context * OvermindInstance) :=
  match msg with loadSourcesConfigMsg c o => Some (c, o) | _ => None end.

(** The change id of the last [changeIdentifiedMsg] of a run, and the
    context and instance of its last [loadSourcesConfigMsg]. *)
Definition lastIdentified (tr : list Msg) : option uuid :=
  lastPick identifiedBy tr.

Definition lastConfig (tr : list Msg) : option (Context * OvermindInstance) :=
  lastPick configOf tr.

(** The fields that only construction writes. *)
Definition configuration (m : tfApplyModel)
  : list string * string * bool * bool * string * list string :=
  (args m, planFile m, needPlan m, needApproval m, processingHeader m,
   progress m).

(** The two snapshots are not running. *)
Definition idle (m : tfApplyModel) : Prop :=
  status (task (startingChangeSnapshot m)) <> taskStatusRunning
  /\ status (task (endingChangeSnapshot m)) <> taskStatusRunning.

(** *** The auto-approve flags, one by one *)

(** What a single argument says about approval, if anything. *)
Definition autoApproveValue (a : string) : option bool :=
  if existsb (String.eqb a)
       ["-auto-approve=false"; "-auto-approve=FALSE";
        "--auto-approve=false"; "--auto-approve=FALSE"]
  then Some false
  else if existsb (String.eqb a)
            ["-auto-approve"; "-auto-approve=true"; "-auto-approve=TRUE";
             "--auto-approve"; "--auto-approve=true"; "--auto-approve=TRUE"]
  then Some true
  else None.

Definition noApproveFlag (l : list string) : Prop :=
  Forall (fun a => autoApproveValue a = None) l.

End Lifecycle.

(** ** The map extractor ([extractmaps.go]) *)

(** A Go map with string keys, kept as an association list without
    repeated keys; the order of the keys plays no part in a lookup. *)
Fixpoint mapGet {V : Type} (k : string) (d : list (string * V)) : option V :=
  match d with
  | [] => None
  | (k', v) :: d' => if String.eqb k k' then Some v else mapGet k d'
  end.

(** [d[k] = v] *)
Definition mapSet {V : Type} (k : string) (v : V) (d : list (string * V))
  : list (string * V) :=
  (k, v) :: filter (fun p => negb (String.eqb k (fst p))) d.

(** What [json.Unmarshal] puts behind [any]. Numbers are never looked at;
    they keep their literal. *)
#[warnings="-register-all"]
Inductive jsonValue : Type :=
| jsonNull
| jsonBool (b : bool)
| jsonNumber (literal : string)
| jsonString (s : string)
| jsonArray (l : list jsonValue)
| jsonObject (fields : list (string * jsonValue)).

(** The decoded document, [map[string]any]. *)
Definition jsonDoc : Type := list (string * jsonValue).

(** The type assertion [v.(string)] on the result of a map lookup; [None]
    is the panic on a missing key (nil interface) or another type. *)
Definition asString (v : option jsonValue) : option string :=
  match v with
  | Some (jsonString s) => Some s
  | _ => None
  end.

(** Where the first "." of a string cuts it, if there is one. *)
Fixpoint splitAtDot (s : string) : option (string * string) :=
  match s with
  | EmptyString => None
  | String c r =>
      if Ascii.eqb c "."%char then Some (EmptyString, r)
      else match splitAtDot r with
           | Some (a, b) => Some (String c a, b)
           | None => None
           end
  end.

(** [strings.SplitN(q, ".", 2)] *)
Definition SplitN2 (q : string) : list string :=
  match splitAtDot q with
  | Some (a, b) => [a; b]
  | None => [q]
  end.

(** [strings.HasSuffix(s, suffix)] *)
Definition HasSuffix (s suffix : string) : bool :=
  (String.length suffix <=? String.length s)%nat
  && String.eqb (substring (String.length s - String.length suffix)
                           (String.length suffix) s)
                suffix.

(** The [switch] on [terraformMethod]: the value stored under "method",
    if any. *)
Definition methodFor (m : string) : option string :=
  if String.eqb m "GET" then Some "GET"
  else if String.eqb m "SEARCH" then Some "LIST"
  else None.

(** The body of the loop over the queries of one document, up to the
    update of [result]: the record built for the query [qAny]. [None] is
    a panic: a failed type assertion or [qSplit[1]] out of range. *)
Definition queryData (parsed : jsonDoc) (qAny : jsonValue)
  : option (list (string * string)) :=
  match asString (Some qAny) with
  | None => None
  | Some q =>
      match asString (mapGet "type" parsed) with
      | None => None
      | Some ty =>
          let data := [("type", ty)] in
          let qSplit := SplitN2 q in
          match nth_error qSplit 0, nth_error qSplit 1 with
          | Some q0, Some q1 =>
              let data := mapSet "query-type" q0 data in
              let data := mapSet "query-field" q1 data in
              match asString (mapGet "terraformScope" parsed) with
              | None => None
              | Some sc =>
                  let data := mapSet "scope" sc data in
                  match asString (mapGet "terraformMethod" parsed) with
                  | None => None
                  | Some tm =>
                      match methodFor tm with
                      | Some v => Some (mapSet "method" v data)
                      | None => Some data
                      end
                  end
              end
          | _, _ => None
          end
      end
  end.

Definition extractResult : Type := list (string * list (list (string * string))).

(** [result[k]], the nil slice when the key is missing. *)
Definition resultAt (k : string) (result : extractResult)
  : list (list (string * string)) :=
  match mapGet k result with
  | Some l => l
  | None => []
  end.

(** [data[k]] on a [map[string]string], the empty string when the key is
    missing. *)
Definition dataAt (k : string) (data : list (string * string)) : string :=
  match mapGet k data with
  | Some v => v
  | None => ""
  end.

(** One round of the loop over the queries. *)
Definition addQuery (parsed : jsonDoc) (acc : option extractResult)
           (qAny : jsonValue) : option extractResult :=
  match acc with
  | None => None
  | Some result =>
      match queryData parsed qAny with
      | None => None
      | Some data =>
          let k := dataAt "query-type" data in
          Some (mapSet k (resultAt k result ++ [data])%list result)
      end
  end.

(** A directory entry, and the files of the directory as the extractor
    meets them: [None] when reading or decoding the file fails. *)
Record dirEntry : Type := mkEntry {
  entryName : string;
  entryIsDir : bool
}.

(** One round of the loop over the directory entries. Printing the name
    of the file has no part in the result. *)
Definition addEntry (load : string -> option jsonDoc) (path : string)
           (acc : option extractResult) (e : dirEntry)
  : option extractResult :=
  match acc with
  | None => None
  | Some result =>
      if entryIsDir e then Some result
      else if negb (HasSuffix (entryName e) ".json") then Some result
      else
        match load (path ++ "/" ++ entryName e) with
        | None => None
        | Some parsed =>
            match mapGet "terraformQuery" parsed with
            | None => Some result
            | Some (jsonArray qs) => fold_left (addQuery parsed) qs (Some result)
            | Some _ => None
            end
        end
  end.

(** [dataFromFiles(path)]: [readDir] is [os.ReadDir]; [None] is a panic. *)
Definition dataFromFiles (readDir : string -> option (list dirEntry))
           (load : string -> option jsonDoc) (path : string)
  : option extractResult :=
  match readDir path with
  | None => None
  | Some entries => fold_left (addEntry load path) entries (Some [])
  end.

(** The number of records in a result. *)
Definition recordCount (result : extractResult) : nat :=
  list_sum (map (fun kv => length (snd kv)) result).

(** Every key occurs once, and every record is filed under its own
    "query-type". *)
Definition grouped (result : extractResult) : Prop :=
  NoDup (map fst result)
  /\ forall k l d, In (k, l) result -> In d l -> mapGet "query-type" d = Some k.

(** The number of queries that the files of a directory listing carry. *)
Definition queriesOf (load : string -> option jsonDoc) (path : string)
           (e : dirEntry) : nat :=
  if entryIsDir e then 0
  else if negb (HasSuffix (entryName e) ".json") then 0
  else match load (path ++ "/" ++ entryName e) with
       | Some parsed =>
           match mapGet "terraformQuery" parsed with
           | Some (jsonArray qs) => length qs
           | _ => 0
           end
       | None => 0
       end.

(** ** The rendering rule, in the words of the specification *)

(** The text after the phase label, row by row of the rendering rule. *)
Definition specCounts (i e : N) : string :=
  match i, e with
  | 0%N, 0%N => ""
  | 1%N, 0%N => ": 1 item"
  | 1%N, 1%N => ": 1 item, 1 edge"
  | _, _ =>
      if (1 <? i)%N then
        match e with
        | 0%N => ": " ++ fmtD i ++ " items"
        | 1%N => ": " ++ fmtD i ++ " items, 1 edge"
        | _ => ": " ++ fmtD i ++ " items, " ++ fmtD e ++ " edges"
        end
      else ": " ++ fmtD i ++ " items, " ++ fmtD e ++ " edges"
  end.

Definition specRender (st phase : string) (i e : N) : string :=
  st ++ " - " ++ phase ++ specCounts i e.

(** ** A concrete set of collaborators, for running the model *)

Definition demoViper (key : string) : string :=
  if String.eqb key "aws-profile" then "prod" else "".

#[export] Instance demoCollaborators : Collaborators := {|
  spinnerUpdate := fun s _ => (s, None);
  spinnerTick := fun _ => 0%N;
  spinnerInitialFrame := "*";
  runPlanModel := unit;
  submitPlanModel := unit;
  NewRunPlanModel := fun _ _ => tt;
  NewSubmitPlanModel := fun _ => tt;
  runPlanInit := fun _ => Some 1%N;
  submitPlanInit := fun _ => Some 2%N;
  runPlanUpdate := fun m _ => (m, None);
  submitPlanUpdate := fun m _ => (m, None);
  planArgsFromApplyArgs := fun a => a;
  viperGetString := demoViper;
  zeroStateName := "STATE_UNSPECIFIED"
|}.

(** The same collaborators with an empty configuration. *)
Definition bareCollaborators : Collaborators := {|
  spinnerUpdate := fun s _ => (s, None);
  spinnerTick := fun _ => 0%N;
  spinnerInitialFrame := "*";
  runPlanModel := unit;
  submitPlanModel := unit;
  NewRunPlanModel := fun _ _ => tt;
  NewSubmitPlanModel := fun _ => tt;
  runPlanInit := fun _ => Some 1%N;
  submitPlanInit := fun _ => Some 2%N;
  runPlanUpdate := fun m _ => (m, None);
  submitPlanUpdate := fun m _ => (m, None);
  planArgsFromApplyArgs := fun a => a;
  viperGetString := fun _ => "";
  zeroStateName := "STATE_UNSPECIFIED"
|}.

(** A file system holding the plan file [tfplan] and the directory [dir]. *)
Definition demoOS : OS :=
  mkOS (fun name => if String.eqb name "tfplan" then Some false
                    else if String.eqb name "dir" then Some true
                    else None)
       (Ok "/tmp/overmind-plan1").

(** A service that identifies change 7 and streams two updates. *)
Definition demoService : ChangeService :=
  mkService (fun _ => Ok "https://tickets/1")
            (fun _ _ _ => Ok 7%N)
            (fun _ _ _ =>
               Ok (mkStream [mkResponse "STATE_TAKING_SNAPSHOT" 1 0;
                             mkResponse "STATE_SAVING_SNAPSHOT" 5 3] None)).

(** The model a construction returns, for use in examples. *)
Definition blankModel : tfApplyModel :=
  mkTfApply 0%N "" [] "" false tt false false tt "" false 0%N false
    (NewSnapShotModel 0 "") false false (NewSnapShotModel 0 "") [] 0%Z.

Definition modelOf (r : result (tfApplyModel * list string)) : tfApplyModel :=
  match r with
  | Ok (m, _) => m
  | Err _ => blankModel
  end.

Definition modelOfBare
  (r : result (@tfApplyModel bareCollaborators * list string))
  : @tfApplyModel bareCollaborators :=
  match r with
  | Ok (m, _) => m
  | Err _ =>
      @mkTfApply bareCollaborators 0%N "" [] "" false tt false false tt ""
        false 0%N false (@NewSnapShotModel bareCollaborators 0 "") false false
        (@NewSnapShotModel bareCollaborators 0 "") [] 0%Z
  end.

(** A model over the collaborators with the empty configuration. *)
Definition bareModel : @tfApplyModel bareCollaborators :=
  modelOfBare (@NewTfApplyModel bareCollaborators demoOS 1 2 ["tfplan"]).

(** The model of a run without a plan argument, and of one with it. *)
Definition demoFresh : tfApplyModel :=
  modelOf (NewTfApplyModel demoOS 1 2 ["-auto-approve"]).
Definition demoWithPlan : tfApplyModel :=
  modelOf (NewTfApplyModel demoOS 1 2 ["tfplan"]).

(** The same models once the configuration message has set the context. *)
Definition demoReady : tfApplyModel :=
  runModel demoWithPlan [loadSourcesConfigMsg 1%N "app"].
Definition bareReady : @tfApplyModel bareCollaborators :=
  @runModel bareCollaborators bareModel [loadSourcesConfigMsg 1%N "app"].


(** A run in which the plan finishes, the window is resized, the warm-up
    finishes, and the warm-up completion arrives a second time. *)
Definition arrivalsOnce : list Msg :=
  [runPlanFinishedMsg; WindowSizeMsg 80 24; revlinkWarmupFinishedMsg].
Definition arrivalsRepeated : list Msg :=
  [runPlanFinishedMsg; revlinkWarmupFinishedMsg; revlinkWarmupFinishedMsg].

(** A complete run with a supplied plan: warm-up, start-change worker,
    subprocess, end-change worker. *)
Definition happyRun : list Msg :=
  [loadSourcesConfigMsg 1%N "app";
   revlinkWarmupFinishedMsg;
   startStartingSnapshotMsg;
   changeIdentifiedMsg 7%N;
   startSnapshotMsg 1 "starting";
   progressSnapshotMsg 1 "STATE_TAKING_SNAPSHOT" 1 0;
   progressSnapshotMsg 1 "STATE_SAVING_SNAPSHOT" 5 3;
   finishSnapshotMsg 1 "STATE_SAVING_SNAPSHOT" 5 3;
   runTfApplyMsg;
   tfApplyFinishedMsg;
   startSnapshotMsg 2 "ending";
   progressSnapshotMsg 2 "STATE_SAVING_SNAPSHOT" 5 3;
   finishSnapshotMsg 2 "STATE_SAVING_SNAPSHOT" 5 3].

(** An end-change service that streams one update, and a start-change
    service whose plan file carries no ticket link. *)
Definition demoEndService : EndChangeService :=
  mkEndService (fun _ _ _ =>
                  Ok (mkEndStream [mkEndResponse "STATE_SAVING_SNAPSHOT" 5 3]
                                  None))
               "STATE_UNSPECIFIED".

Definition failingService : ChangeService :=
  mkService (fun _ => Err (errNew "no ticket link in plan"))
            (fun _ _ _ => Ok 7%N)
            (fun _ _ _ => Ok (mkStream [] None)).

Definition demoStream : ServerStream :=
  mkStream [mkResponse "STATE_TAKING_SNAPSHOT" 1 0;
            mkResponse "STATE_SAVING_SNAPSHOT" 5 3] None.

(** A directory for the extractor: one document with two queries, a file
    that is not JSON, and a sub-directory. *)
Definition demoDoc : jsonDoc :=
  [("type", jsonString "ec2-instance");
   ("terraformQuery",
    jsonArray [jsonString "aws_instance.id"; jsonString "aws_spot.tags.name"]);
   ("terraformMethod", jsonString "SEARCH");
   ("terraformScope", jsonString "*")].

Definition demoReadDir (path : string) : option (list dirEntry) :=
  Some [mkEntry "ec2.json" false; mkEntry "README.md" false;
        mkEntry "nested" true].

Definition demoLoad (name : string) : option jsonDoc :=
  if String.eqb name "docs/ec2.json" then Some demoDoc else None.

(** * Properties *)

Lemma append_empty_r (a : string) : a ++ "" = a.
Proof. induction a as [|x a IH]; cbn; [reflexivity | now rewrite IH]. Qed.

Section SnapshotFacts.
Context `{C : Collaborators}.

(** ** Snapshot: what the three events do *)

Lemma snapshotUpdate_start (m : snapshotModel) (id : Z) (s : string) :
  snapshotUpdate m (startSnapshotMsg id s)
  = (mkSnapshot (task m) s (items m) (edges m), cmdNil).
Proof. reflexivity. Qed.

Lemma snapshotUpdate_progress (m : snapshotModel) (id : Z) (s : string) (i e : N) :
  snapshotUpdate m (progressSnapshotMsg id s i e)
  = (mkSnapshot (task m) s i e, cmdNil).
Proof. reflexivity. Qed.

Lemma snapshotUpdate_finish (m : snapshotModel) (id : Z) (s : string) (i e : N) :
  snapshotUpdate m (finishSnapshotMsg id s i e)
  = (mkSnapshot (task m) s i e, cmdNil).
Proof. reflexivity. Qed.

(** The identity token of an event plays no part in [snapshotUpdate]: a
    start event rewrites the phase label of whatever snapshot it is handed
    to. *)
Lemma snapshotUpdate_start_any_id (m : snapshotModel) (id : Z) (s : string) :
  visibleState (fst (snapshotUpdate m (startSnapshotMsg id s)))
  = (s, items m, edges m, status (task m)).
Proof. reflexivity. Qed.

(** A finish event leaves the embedded task model, and so its status, as
    it was. *)
Lemma snapshotUpdate_finish_task (m : snapshotModel) (id : Z) (s : string) (i e : N) :
  task (fst (snapshotUpdate m (finishSnapshotMsg id s i e))) = task m.
Proof. reflexivity. Qed.

(** No message changes the status of a snapshot: the three events leave
    the task model alone, and the task model never writes its status. *)
Lemma snapshotUpdate_status (m : snapshotModel) (msg : Msg) :
  status (task (fst (snapshotUpdate m msg))) = status (task m).
Proof.
  assert (H : status (fst (taskUpdate (task m) msg)) = status (task m)).
  { unfold taskUpdate. destruct (isKeyMsg msg) as [k|].
    - now destruct (String.eqb k "q").
    - destruct (status (task m)) eqn:E; cbn; try exact E.
      now destruct (spinnerUpdate (spinner (task m)) msg). }
  unfold snapshotUpdate.
  destruct msg; try reflexivity;
    destruct (taskUpdate (task m) _) as [t c]; exact H.
Qed.

(** ** Snapshot: rendering *)

(** C6: for every snapshot, [View] is the status view, the phase label and
    the counts laid out by the table of the rendering rule: nothing for
    (0,0), "1 item" for (1,0), "1 item, 1 edge" for (1,1), "N items" for
    (N>1,0), "N items, 1 edge" for (N>1,1), and "N items, M edges" for
    every other pair. *)
Theorem snapshotView_rendering_rule (m : snapshotModel) :
  snapshotView m
  = specRender (taskView (task m)) (state m) (items m) (edges m).
Proof.
  unfold snapshotView, specRender, specCounts.
  destruct (items m) as [|[p|p|]], (edges m) as [|[q|q|]];
    cbn [N.eqb N.ltb N.compare Pos.eqb Pos.compare Pos.compare_cont
         andb orb];
    rewrite ?append_empty_r; try reflexivity.
  all: destruct p; rewrite ?append_empty_r; reflexivity.
Qed.

(** The rows of the table, on concrete counters. *)
Example snapshotView_table (t : taskModel) (phase : string) :
  let X := taskView t in
  snapshotView (mkSnapshot t phase 0 0) = X ++ " - " ++ phase
  /\ snapshotView (mkSnapshot t phase 1 0) = X ++ " - " ++ phase ++ ": 1 item"
  /\ snapshotView (mkSnapshot t phase 1 1)
     = X ++ " - " ++ phase ++ ": 1 item, 1 edge"
  /\ snapshotView (mkSnapshot t phase 5 0) = X ++ " - " ++ phase ++ ": 5 items"
  /\ snapshotView (mkSnapshot t phase 5 1)
     = X ++ " - " ++ phase ++ ": 5 items, 1 edge"
  /\ snapshotView (mkSnapshot t phase 5 5)
     = X ++ " - " ++ phase ++ ": 5 items, 5 edges"
  /\ snapshotView (mkSnapshot t phase 0 3)
     = X ++ " - " ++ phase ++ ": 0 items, 3 edges"
  /\ snapshotView (mkSnapshot t phase 1 4)
     = X ++ " - " ++ phase ++ ": 1 items, 4 edges".
Proof. cbv zeta. repeat split; reflexivity. Qed.

End SnapshotFacts.

Section OrchestratorFacts.
Context `{C : Collaborators}.

(** ** Construction of the model *)

Lemma eatsNext_spec (prev : string) :
  eatsNext prev = true <->
  exists f, In f eatingFlags /\ (prev = f \/ String.prefix (f ++ "=") prev = true).
Proof.
  unfold eatsNext. rewrite existsb_exists. split.
  - intros [f [Hin H]]. exists f. split; [exact Hin|].
    apply orb_true_iff in H. destruct H as [H|H]; [left|right; exact H].
    now apply String.eqb_eq.
  - intros [f [Hin [H|H]]]; exists f; split; try exact Hin;
      apply orb_true_iff; [left|right; exact H].
    now apply String.eqb_eq.
Qed.

Lemma hasPlanSet_file (os : OS) (a : list string) :
  a <> [] ->
  osStat os (lastArg a) = Some false ->
  hasPlanSet os a = if (2 <=? length a)%nat then negb (eatsNext (prevArg a)) else true.
Proof.
  intros Hne Hst. unfold hasPlanSet. rewrite Hst.
  destruct a as [|x a]; [congruence|]. reflexivity.
Qed.

Lemma NewTfApplyModel_plan_set (os : OS) (sid eid : Z) (a : list string) :
  hasPlanSet os a = true ->
  exists m,
    NewTfApplyModel os sid eid a = Ok (m, "plan" :: planArgsFromApplyArgs a)
    /\ planFile m = lastArg a
    /\ needPlan m = false
    /\ runPlanFinished m = true
    /\ needApproval m = false
    /\ args m = "apply" :: a.
Proof.
  intros H. unfold NewTfApplyModel. rewrite H. cbn.
  eexists. split; [reflexivity|]. cbn. repeat split.
Qed.

Lemma NewTfApplyModel_plan_unset (os : OS) (sid eid : Z) (a : list string)
      (tmp : string) :
  hasPlanSet os a = false ->
  osCreateTemp os = Ok tmp ->
  exists m,
    NewTfApplyModel os sid eid a
    = Ok (m, ("plan" :: planArgsFromApplyArgs a ++ ["-out"; tmp])%list)
    /\ planFile m = tmp
    /\ needPlan m = true
    /\ runPlanFinished m = false
    /\ args m = ("apply" :: a ++ [tmp])%list.
Proof.
  intros H Ht. unfold NewTfApplyModel. rewrite H, Ht. cbn.
  eexists. split; [reflexivity|]. cbn. repeat split.
Qed.

(** C7: when the user supplied the plan file, the model is built with
    [needPlan] off and [runPlanFinished] already set, and [Init] schedules
    no command at all, so neither the plan task nor the submit task is
    started. *)
Theorem plan_supplied_skips_planning (os : OS) (sid eid : Z) (a : list string) :
  hasPlanSet os a = true ->
  exists m pa,
    NewTfApplyModel os sid eid a = Ok (m, pa)
    /\ Init m = []
    /\ runPlanFinished m = true
    /\ needPlan m = false.
Proof.
  intros H.
  destruct (NewTfApplyModel_plan_set os sid eid a H)
    as [m [Hnew [_ [Hneed [Hfin _]]]]].
  exists m, ("plan" :: planArgsFromApplyArgs a). repeat split; try assumption.
  unfold Init. now rewrite Hneed.
Qed.

(** C9: for a non-empty argument vector whose last element is an existing
    file that is not a directory, the file is taken as the plan exactly
    when the argument before it, if there is one, is none of the flags
    -backup, --backup, -state, --state, -state-out, --state-out, neither
    as such nor followed by "=". When it is taken, it becomes the plan
    file, no plan is generated and approval is not asked for. When it is
    not, the name of the temporary file becomes the plan file and is
    appended to the plan arguments after "-out" and to the apply
    arguments. *)
Theorem plan_argument_detection (os : OS) (sid eid : Z) (a : list string) :
  a <> [] ->
  osStat os (lastArg a) = Some false ->
  (hasPlanSet os a = true <->
   ((2 <= length a)%nat ->
    ~ exists f, In f eatingFlags
                /\ (prevArg a = f \/ String.prefix (f ++ "=") (prevArg a) = true)))
  /\ (hasPlanSet os a = true ->
      exists m,
        NewTfApplyModel os sid eid a = Ok (m, "plan" :: planArgsFromApplyArgs a)
        /\ planFile m = lastArg a
        /\ needPlan m = false
        /\ needApproval m = false
        /\ args m = "apply" :: a)
  /\ (hasPlanSet os a = false ->
      forall tmp, osCreateTemp os = Ok tmp ->
      exists m,
        NewTfApplyModel os sid eid a
        = Ok (m, ("plan" :: planArgsFromApplyArgs a ++ ["-out"; tmp])%list)
        /\ planFile m = tmp
        /\ needPlan m = true
        /\ args m = ("apply" :: a ++ [tmp])%list).
Proof.
  intros Hne Hst. split; [|split].
  - rewrite (hasPlanSet_file os a Hne Hst).
    destruct (2 <=? length a)%nat eqn:Hlen.
    + apply Nat.leb_le in Hlen. rewrite negb_true_iff. split.
      * intros He _ Hex. apply eatsNext_spec in Hex. congruence.
      * intros H. destruct (eatsNext (prevArg a)) eqn:He; [|reflexivity].
        exfalso. apply (H Hlen). now apply eatsNext_spec.
    + apply Nat.leb_gt in Hlen. split; [intros _ Hge; lia | reflexivity].
  - intros H.
    destruct (NewTfApplyModel_plan_set os sid eid a H)
      as [m [Hnew [Hpf [Hneed [_ [Happ Hargs]]]]]].
    exists m. repeat split; assumption.
  - intros H tmp Ht.
    destruct (NewTfApplyModel_plan_unset os sid eid a tmp H Ht)
      as [m [Hnew [Hpf [Hneed [_ Hargs]]]]].
    exists m. repeat split; assumption.
Qed.

(** ** The subprocess *)

Lemma isNilContext_false (c : Context) :
  c <> nilContext -> isNilContext c = false.
Proof. intros H. unfold isNilContext. now apply N.eqb_neq. Qed.

(** The command of the [runTfApplyMsg] case when the context is set. *)
Lemma tfApplyExecCmd_ready (m : tfApplyModel) :
  ctx m <> nilContext ->
  tfApplyExecCmd m
  = Some (mkExecCmd (ctx m) "terraform" ("terraform" :: args m)
            (if String.eqb (viperGetString "aws-profile") "" then None
             else Some ["AWS_PROFILE=" ++ viperGetString "aws-profile"])).
Proof.
  intros H. unfold tfApplyExecCmd, CommandContext.
  rewrite (isNilContext_false _ H).
  destruct (String.eqb (viperGetString "aws-profile") ""); reflexivity.
Qed.

(** With the context still nil the command is not built: [Update]
    panics. *)
Lemma Update_runTfApply_nil (m : tfApplyModel) :
  ctx m = nilContext ->
  tfApplyExecCmd m = None
  /\ Update m runTfApplyMsg = (m, [cmdPanicked "nil Context"]).
Proof.
  intros H. unfold Update, tfApplyExecCmd, CommandContext. rewrite H.
  split; reflexivity.
Qed.

(** C10: at a subprocess launch, that is when [runTfApplyMsg] is handled
    with the context set, the command launched has, when the aws-profile
    setting is not empty, an environment of exactly one entry,
    AWS_PROFILE=<value>, which is then the whole environment of the child;
    when the setting is empty its environment stays nil and the child gets
    the environment of the parent. *)
Theorem aws_profile_environment (m : tfApplyModel) (parent : list string) :
  ctx m <> nilContext ->
  exists c,
    tfApplyExecCmd m = Some c
    /\ Update m runTfApplyMsg = (m, [cmdExecProcess c tfApplyCallback])
    /\ (viperGetString "aws-profile" <> "" ->
        cmdEnv c = Some ["AWS_PROFILE=" ++ viperGetString "aws-profile"]
        /\ childEnviron parent c
           = ["AWS_PROFILE=" ++ viperGetString "aws-profile"])
    /\ (viperGetString "aws-profile" = "" ->
        cmdEnv c = None /\ childEnviron parent c = parent).
Proof.
  intros Hctx. eexists. split; [apply (tfApplyExecCmd_ready m Hctx)|].
  split.
  - unfold Update. now rewrite (tfApplyExecCmd_ready m Hctx).
  - unfold childEnviron. cbn [cmdEnv]. split; intros H.
    + apply String.eqb_neq in H. rewrite H. split; reflexivity.
    + rewrite H. cbn. split; reflexivity.
Qed.

End OrchestratorFacts.

Section WorkerFacts.
Context `{C : Collaborators}.

(** ** The start-change worker *)

Lemma countb_app {A : Type} (p : A -> bool) (l1 l2 : list A) :
  countb p (l1 ++ l2) = countb p l1 + countb p l2.
Proof. unfold countb. now rewrite filter_app, length_app. Qed.

Lemma countb_map_none {A B : Type} (p : B -> bool) (f : A -> B) (l : list A) :
  (forall x, p (f x) = false) -> countb p (map f l) = 0.
Proof.
  intros H. unfold countb. induction l as [|x l IH]; cbn; [reflexivity|].
  now rewrite H.
Qed.

Lemma countb_map_all {A B : Type} (p : B -> bool) (f : A -> B) (l : list A) :
  (forall x, p (f x) = true) -> countb p (map f l) = length l.
Proof.
  intros H. unfold countb. induction l as [|x l IH]; cbn; [reflexivity|].
  rewrite H. cbn. now rewrite IH.
Qed.

Lemma runStartChange_stream (svc : ChangeService) (m : tfApplyModel)
      (t : string) (u : uuid) (st : ServerStream) :
  resolveTicketLink svc m = Ok t ->
  getChangeUuid svc (ctx m) (oi m) t = Ok u ->
  StartChange svc (ctx m) (oi m) u = Ok st ->
  runStartChange svc m
  = (changeIdentifiedMsg u :: StartMsg (startingChangeSnapshot m) "starting"
       :: progressOf m (streamMsgs st),
     match streamErr st with
     | Some e => fatalError 0 (errWrap "failed to process start change: " e)
     | None =>
         let r := last (streamMsgs st) nilResponse in
         FinishMsg (startingChangeSnapshot m)
           (respState r) (respNumItems r) (respNumEdges r)
     end).
Proof.
  intros Ht Hu Hst. unfold runStartChange. rewrite Ht, Hu, Hst.
  destruct (streamErr st); reflexivity.
Qed.

(** C3: the start-change worker takes the ticket link from the
    configuration and, when that is empty, from the plan file; a failure
    to resolve it is returned as a fatal error. Once the change is
    identified it sends the change id, once, and then a start event; it
    sends one progress event per message of the stream, in order; when
    the stream closes without error it returns a finish event with the
    label and counts of the last message received (those of the nil
    response when there was none). When identification, the opening of
    the stream or the stream itself fails it returns a fatal error, and
    no finish event is sent or returned. *)
Theorem start_change_worker (svc : ChangeService) (m : tfApplyModel) :
  let out := runStartChange svc m in
  let snap := startingChangeSnapshot m in
  (resolveTicketLink svc m
   = if String.eqb (viperGetString "ticket-link") ""
     then getTicketLinkFromPlan svc (planFile m)
     else Ok (viperGetString "ticket-link"))
  /\ (forall e, resolveTicketLink svc m = Err e -> out = ([], fatalError 0 e))
  /\ (forall t e,
        resolveTicketLink svc m = Ok t ->
        getChangeUuid svc (ctx m) (oi m) t = Err e ->
        out = ([], fatalError 0 (errWrap "failed to identify change: " e)))
  /\ (forall t u,
        resolveTicketLink svc m = Ok t ->
        getChangeUuid svc (ctx m) (oi m) t = Ok u ->
        countb isChangeIdentified (fst out) = 1
        /\ (forall e,
              StartChange svc (ctx m) (oi m) u = Err e ->
              out = ([changeIdentifiedMsg u; StartMsg snap "starting"],
                     fatalError 0 (errWrap "failed to start change: " e)))
        /\ (forall st,
              StartChange svc (ctx m) (oi m) u = Ok st ->
              fst out
              = (changeIdentifiedMsg u :: StartMsg snap "starting"
                   :: progressOf m (streamMsgs st))%list
              /\ countb isProgressMsg (fst out) = length (streamMsgs st)
              /\ (streamErr st = None ->
                  let r := last (streamMsgs st) nilResponse in
                  snd out
                  = FinishMsg snap (respState r) (respNumItems r) (respNumEdges r))
              /\ (forall e,
                    streamErr st = Some e ->
                    snd out
                    = fatalError 0
                        (errWrap "failed to process start change: " e))))
  /\ countb isFinishMsg (fst out) = 0
  /\ (isFinishMsg (snd out) = true \/ isFatalError (snd out) = true).
Proof.
  cbv zeta.
  split; [reflexivity|].
  split; [intros e He; unfold runStartChange; now rewrite He|].
  split; [intros t e Ht Hu; unfold runStartChange; now rewrite Ht, Hu|].
  split.
  - intros t u Ht Hu. split; [|split].
    + unfold runStartChange. rewrite Ht, Hu.
      destruct (StartChange svc (ctx m) (oi m) u) as [st|e0]; [|reflexivity].
      assert (H : countb isChangeIdentified
                    ([changeIdentifiedMsg u;
                      StartMsg (startingChangeSnapshot m) "starting"]
                       ++ progressOf m (streamMsgs st)) = 1).
      { rewrite countb_app. unfold progressOf.
        rewrite countb_map_none by reflexivity. reflexivity. }
      destruct (streamErr st); exact H.
    + intros e He. unfold runStartChange. now rewrite Ht, Hu, He.
    + intros st Hst.
      rewrite (runStartChange_stream svc m t u st Ht Hu Hst). cbn [fst snd].
      split; [reflexivity|]. split.
      * change (changeIdentifiedMsg u
                  :: StartMsg (startingChangeSnapshot m) "starting"
                  :: progressOf m (streamMsgs st))
          with ([changeIdentifiedMsg u;
                 StartMsg (startingChangeSnapshot m) "starting"]
                  ++ progressOf m (streamMsgs st))%list.
        rewrite countb_app. unfold progressOf.
        rewrite countb_map_all by reflexivity. reflexivity.
      * split; [intros He; now rewrite He | intros e He; now rewrite He].
  - unfold runStartChange.
    destruct (resolveTicketLink svc m) as [t|e]; [|split; [reflexivity|now right]].
    destruct (getChangeUuid svc (ctx m) (oi m) t) as [u|e];
      [|split; [reflexivity|now right]].
    destruct (StartChange svc (ctx m) (oi m) u) as [st|e];
      [|split; [reflexivity|now right]].
    assert (Hfin : countb isFinishMsg
                     ([changeIdentifiedMsg u;
                       StartMsg (startingChangeSnapshot m) "starting"]
                        ++ progressOf m (streamMsgs st)) = 0).
    { rewrite countb_app. unfold progressOf.
      rewrite countb_map_none by reflexivity. reflexivity. }
    destruct (streamErr st); cbn [fst snd]; (split; [exact Hfin|]);
      [now right | now left].
Qed.

End WorkerFacts.

Section UpdateFacts.
Context `{C : Collaborators}.

(** ** One step of [Update] *)

Lemma Update_runTfApply (m : tfApplyModel) :
  Update m runTfApplyMsg
  = (m, match tfApplyExecCmd m with
        | Some c => [cmdExecProcess c tfApplyCallback]
        | None => [cmdPanicked "nil Context"]
        end).
Proof. unfold Update. now destruct (tfApplyExecCmd m). Qed.

Lemma liftForeign_inert (owner : string) (c : option N) :
  inertCmd (liftForeign owner c) = true.
Proof. destruct c; reflexivity. Qed.

Lemma taskInit_inert (t : taskModel) : inertCmd (taskInit t) = true.
Proof. unfold taskInit. destruct (status t); reflexivity. Qed.

Lemma taskUpdate_inert (t : taskModel) (msg : Msg) :
  inertCmd (snd (taskUpdate t msg)) = true.
Proof.
  unfold taskUpdate. destruct (isKeyMsg msg) as [k|].
  - destruct (String.eqb k "q"); reflexivity.
  - destruct (status t); try reflexivity.
    destruct (spinnerUpdate (spinner t) msg) as [sp c]. cbn.
    apply liftForeign_inert.
Qed.

Lemma snapshotUpdate_inert (sn : snapshotModel) (msg : Msg) :
  inertCmd (snd (snapshotUpdate sn msg)) = true.
Proof.
  pose proof (taskUpdate_inert (task sn) msg) as H.
  unfold snapshotUpdate.
  destruct msg; try reflexivity;
    destruct (taskUpdate (task sn) _) as [t c]; exact H.
Qed.

Lemma filter_quiet_inert (p : Cmd -> bool) (l : list Cmd) :
  quiet p -> forallb inertCmd l = true -> filter p l = [].
Proof.
  intros Hq. induction l as [|c l IH]; cbn; [reflexivity|].
  intros H. apply andb_true_iff in H. destruct H as [Hc Hl].
  rewrite (Hq c Hc). now apply IH.
Qed.

Lemma filter_Batch (p : Cmd -> bool) (l : list Cmd) :
  quiet p -> filter p (Batch l) = filter p l.
Proof.
  intros Hq. unfold Batch. induction l as [|c l IH]; cbn; [reflexivity|].
  destruct c; cbn; rewrite ?IH; try reflexivity.
  now rewrite (Hq cmdNil eq_refl).
Qed.

(** The tail of [Update] keeps the commands of the switch and adds inert
    ones only; it leaves the barrier flags and [needPlan] alone. *)
Lemma updateChildren_spec (m : tfApplyModel) (msg : Msg) (cmds : list Cmd) :
  exists extra,
    snd (updateChildren m msg cmds) = (cmds ++ extra)%list
    /\ forallb inertCmd extra = true
    /\ needPlan (fst (updateChildren m msg cmds)) = needPlan m
    /\ runPlanFinished (fst (updateChildren m msg cmds)) = runPlanFinished m
    /\ revlinkWarmupFinished (fst (updateChildren m msg cmds))
       = revlinkWarmupFinished m
    /\ isEnding (fst (updateChildren m msg cmds)) = isEnding m.
Proof.
  unfold updateChildren.
  pose proof (snapshotUpdate_inert (startingChangeSnapshot m) msg) as H1.
  pose proof (snapshotUpdate_inert (endingChangeSnapshot m) msg) as H2.
  destruct (snapshotUpdate (startingChangeSnapshot m) msg) as [s1 c1].
  destruct (snapshotUpdate (endingChangeSnapshot m) msg) as [e1 c2].
  cbn in H1, H2.
  destruct (needPlan m) eqn:Hnp.
  - destruct (runPlanUpdate (runPlanTask m) msg) as [rp c3].
    destruct (submitPlanUpdate (submitPlanTask m) msg) as [sp c4].
    exists [c1; c2; liftForeign "runPlan" c3; liftForeign "submitPlan" c4].
    cbn. rewrite <- app_assoc. cbn.
    rewrite H1, H2, !liftForeign_inert. repeat split; assumption.
  - exists [c1; c2]. cbn. rewrite H1, H2. repeat split; assumption.
Qed.

Lemma Update_filter (p : Cmd -> bool) (m : tfApplyModel) (msg : Msg) :
  quiet p -> isRunTfApply msg = false ->
  filter p (snd (Update m msg)) = filter p (snd (updateSwitch m msg)).
Proof.
  intros Hq Hmsg.
  assert (H : Update m msg
              = (fst (updateChildren (fst (updateSwitch m msg)) msg
                        (snd (updateSwitch m msg))),
                 Batch (snd (updateChildren (fst (updateSwitch m msg)) msg
                               (snd (updateSwitch m msg)))))).
  { unfold Update. destruct msg; try discriminate Hmsg;
      destruct (updateSwitch m _) as [m1 cmds]; cbn [fst snd];
      destruct (updateChildren m1 _ cmds) as [m2 cmds2]; reflexivity. }
  rewrite H. cbn [snd]. rewrite (filter_Batch p _ Hq).
  destruct (updateChildren_spec (fst (updateSwitch m msg)) msg
              (snd (updateSwitch m msg))) as [extra [He [Hin _]]].
  rewrite He, filter_app, (filter_quiet_inert p extra Hq Hin).
  apply app_nil_r.
Qed.

Lemma updateSwitch_flags (m : tfApplyModel) (msg : Msg) :
  needPlan (fst (updateSwitch m msg)) = needPlan m
  /\ runPlanFinished (fst (updateSwitch m msg))
     = runPlanFinished m || isPlanDone msg
  /\ revlinkWarmupFinished (fst (updateSwitch m msg))
     = revlinkWarmupFinished m || isWarmup msg.
Proof.
  destruct msg; cbn; rewrite ?orb_false_r, ?orb_true_r; try (repeat split; fail).
  destruct (id =? startID m)%Z; [|destruct (id =? endID m)%Z];
    cbn; repeat split.
Qed.

Lemma Update_flags (m : tfApplyModel) (msg : Msg) :
  needPlan (fst (Update m msg)) = needPlan m
  /\ runPlanFinished (fst (Update m msg)) = runPlanFinished m || isPlanDone msg
  /\ revlinkWarmupFinished (fst (Update m msg))
     = revlinkWarmupFinished m || isWarmup msg.
Proof.
  destruct (isRunTfApply msg) eqn:Hmsg.
  - destruct msg; try discriminate Hmsg. rewrite Update_runTfApply.
    cbn [fst isPlanDone isWarmup]. rewrite !orb_false_r. repeat split.
  - assert (H : fst (Update m msg)
                = fst (updateChildren (fst (updateSwitch m msg)) msg
                         (snd (updateSwitch m msg)))).
    { unfold Update. destruct msg; try discriminate Hmsg;
        destruct (updateSwitch m _) as [m1 cmds]; cbn [fst snd];
        destruct (updateChildren m1 _ cmds) as [m2 cmds2]; reflexivity. }
    rewrite H.
    destruct (updateChildren_spec (fst (updateSwitch m msg)) msg
                (snd (updateSwitch m msg))) as [extra [_ [_ [H1 [H2 [H3 _]]]]]].
    rewrite H1, H2, H3. apply updateSwitch_flags.
Qed.

(** ** The barrier *)

Lemma quiet_isBarrierCmd : quiet isBarrierCmd.
Proof. intros c; destruct c; cbn; congruence. Qed.

Lemma Update_barrier (m : tfApplyModel) (msg : Msg) :
  filter isBarrierCmd (snd (Update m msg)) = barrierStep m msg.
Proof.
  destruct (isRunTfApply msg) eqn:Hmsg.
  - destruct msg; try discriminate Hmsg. rewrite Update_runTfApply.
    cbn [snd]. now destruct (tfApplyExecCmd m).
  - rewrite (Update_filter _ m msg quiet_isBarrierCmd Hmsg).
    destruct msg; cbn; try reflexivity.
    + now destruct (runPlanFinished m).
    + now destruct (revlinkWarmupFinished m).
    + pose proof (taskInit_inert (task (startingChangeSnapshot m))) as H.
      unfold snapshotInit. cbn.
      now rewrite (quiet_isBarrierCmd _ H).
    + unfold routeWait.
      destruct (id =? startID m)%Z; [|destruct (id =? endID m)%Z]; reflexivity.
    + unfold routeWait.
      destruct (id =? startID m)%Z; [|destruct (id =? endID m)%Z]; reflexivity.
    + destruct (id =? startID m)%Z; [|destruct (id =? endID m)%Z]; reflexivity.
    + pose proof (taskInit_inert (task (endingChangeSnapshot m))) as H.
      unfold snapshotInit. cbn.
      now rewrite (quiet_isBarrierCmd _ H).
Qed.

Lemma history_cons (m : tfApplyModel) (msg : Msg) (tr : list Msg) :
  history m (msg :: tr)
  = (m, msg, snd (Update m msg)) :: history (fst (Update m msg)) tr.
Proof. cbn. now destruct (Update m msg). Qed.

Lemma barrierFires_cons (m : tfApplyModel) (msg : Msg) (tr : list Msg) :
  barrierFires (history m (msg :: tr))
  = (barrierStep m msg ++ barrierFires (history (fst (Update m msg)) tr))%list.
Proof.
  rewrite history_cons. unfold barrierFires, issued. cbn [flat_map snd].
  now rewrite filter_app, Update_barrier.
Qed.

Lemma countb_cons {A : Type} (p : A -> bool) (x : A) (l : list A) :
  countb p (x :: l) = (if p x then 1 else 0) + countb p l.
Proof. unfold countb. cbn. now destruct (p x). Qed.

(** With both flags set and no completion message left, nothing fires. *)
Lemma barrier_after_both (tr : list Msg) :
  forall m,
    countb isWarmup tr = 0 -> countb isPlanDone tr = 0 ->
    barrierFires (history m tr) = [].
Proof.
  induction tr as [|msg tr IH]; intros m Hw Hp; [reflexivity|].
  rewrite countb_cons in Hw, Hp. rewrite barrierFires_cons.
  rewrite IH by lia.
  destruct msg; cbn in Hw, Hp |- *; try reflexivity; lia.
Qed.

(** The plan is done, the warm-up is still awaited. *)
Lemma barrier_after_plan (tr : list Msg) :
  forall m,
    runPlanFinished m = true -> revlinkWarmupFinished m = false ->
    countb isWarmup tr <= 1 -> countb isPlanDone tr = 0 ->
    barrierFires (history m tr)
    = if (0 <? countb isWarmup tr)%nat then [cmdBarrier (needPlan m)] else [].
Proof.
  induction tr as [|msg tr IH]; intros m Hrp Hrw Hw Hp; [reflexivity|].
  rewrite countb_cons in Hw, Hp. rewrite barrierFires_cons, countb_cons.
  destruct (Update_flags m msg) as [Hnp [Hf1 Hf2]].
  destruct (isWarmup msg) eqn:Hmw.
  - destruct msg; try discriminate Hmw. cbn [barrierStep]. rewrite Hrp.
    rewrite barrier_after_both by (cbn in Hp; lia). reflexivity.
  - assert (Hstep : barrierStep m msg = []).
    { destruct msg; cbn in Hmw, Hp |- *; try reflexivity;
        try discriminate; lia. }
    rewrite Hstep, IH; try lia.
    + now rewrite Hnp.
    + rewrite Hf1, Hrp. reflexivity.
    + rewrite Hf2, Hrw. reflexivity.
Qed.

(** The warm-up is done, the plan is still awaited. *)
Lemma barrier_after_warmup (tr : list Msg) :
  forall m,
    runPlanFinished m = false -> revlinkWarmupFinished m = true ->
    countb isWarmup tr = 0 -> countb isPlanDone tr <= 1 ->
    barrierFires (history m tr)
    = if (0 <? countb isPlanDone tr)%nat then [cmdBarrier (needPlan m)] else [].
Proof.
  induction tr as [|msg tr IH]; intros m Hrp Hrw Hw Hp; [reflexivity|].
  rewrite countb_cons in Hw, Hp. rewrite barrierFires_cons, countb_cons.
  destruct (Update_flags m msg) as [Hnp [Hf1 Hf2]].
  destruct (isPlanDone msg) eqn:Hmp.
  - destruct msg; try discriminate Hmp. cbn [barrierStep]. rewrite Hrw.
    rewrite barrier_after_both by (cbn in Hw; lia). reflexivity.
  - assert (Hstep : barrierStep m msg = []).
    { destruct msg; cbn in Hmp, Hw |- *; try reflexivity;
        try discriminate; lia. }
    rewrite Hstep, IH; try lia.
    + now rewrite Hnp.
    + rewrite Hf1, Hrp. reflexivity.
    + rewrite Hf2, Hrw. reflexivity.
Qed.

(** Neither has arrived yet. *)
Lemma barrier_from_start (tr : list Msg) :
  forall m,
    runPlanFinished m = false -> revlinkWarmupFinished m = false ->
    countb isWarmup tr <= 1 -> countb isPlanDone tr <= 1 ->
    barrierFires (history m tr)
    = if (0 <? countb isWarmup tr)%nat && (0 <? countb isPlanDone tr)%nat
      then [cmdBarrier (needPlan m)] else [].
Proof.
  induction tr as [|msg tr IH]; intros m Hrp Hrw Hw Hp; [reflexivity|].
  rewrite countb_cons in Hw, Hp. rewrite barrierFires_cons, !countb_cons.
  destruct (Update_flags m msg) as [Hnp [Hf1 Hf2]].
  destruct (isWarmup msg) eqn:Hmw; [|destruct (isPlanDone msg) eqn:Hmp].
  - destruct msg; try discriminate Hmw. cbn [barrierStep isPlanDone].
    rewrite Hrp. cbn [app].
    rewrite barrier_after_warmup; try (cbn in Hw, Hp; lia).
    + rewrite Hnp. reflexivity.
    + rewrite Hf1, Hrp. reflexivity.
    + rewrite Hf2. apply orb_true_r.
  - destruct msg; try discriminate Hmp. cbn [barrierStep].
    rewrite Hrw. cbn [app].
    rewrite barrier_after_plan; try (cbn in Hw, Hp; lia).
    + rewrite Hnp. cbn [Nat.add]. rewrite andb_true_r. reflexivity.
    + rewrite Hf1. apply orb_true_r.
    + rewrite Hf2, Hrw. reflexivity.
  - assert (Hstep : barrierStep m msg = []).
    { destruct msg; cbn in Hmw, Hmp |- *; try reflexivity; discriminate. }
    rewrite Hstep, IH; try lia.
    + rewrite Hnp. reflexivity.
    + rewrite Hf1, Hrp. reflexivity.
    + rewrite Hf2, Hrw. reflexivity.
Qed.

(** C1 (amended): in a run that starts with neither flag set and in which
    each of the two completion messages arrives at most once, the barrier
    closure is handed out exactly when both have arrived, and then once:
    the first arrival alone fires nothing and the second fires it, in
    either order and with any other messages in between; running the
    closure returns [submitPlanNowMsg] when a plan is needed and
    [startStartingSnapshotMsg] otherwise. There is no latch: in any state,
    a completion message that finds the flag of the other one set hands
    out the closure. *)
Theorem barrier_fires_on_second_arrival (m : tfApplyModel) (tr : list Msg) :
  runPlanFinished m = false ->
  revlinkWarmupFinished m = false ->
  countb isWarmup tr <= 1 ->
  countb isPlanDone tr <= 1 ->
  barrierFires (history m tr)
  = (if (0 <? countb isWarmup tr)%nat && (0 <? countb isPlanDone tr)%nat
     then [cmdBarrier (needPlan m)] else [])
  /\ barrierMsg (needPlan m)
     = (if needPlan m then submitPlanNowMsg else startStartingSnapshotMsg)
  /\ (forall m' msg,
        filter isBarrierCmd (snd (Update m' msg)) = barrierStep m' msg).
Proof.
  intros Hrp Hrw Hw Hp. split; [|split].
  - now apply barrier_from_start.
  - reflexivity.
  - apply Update_barrier.
Qed.

(** ** The subprocess between the two workers *)

Lemma quiet_isExecProcess : quiet isExecProcess.
Proof. intros c; destruct c; cbn; congruence. Qed.


Lemma quiet_isEmitRunTfApply : quiet isEmitRunTfApply.
Proof. intros c; destruct c; cbn; congruence. Qed.


(** Case analysis over the switch, for a test that inert commands fail. *)
Ltac switch_cases Hq m :=
  cbn;
  try (unfold snapshotInit; cbn;
       first [ rewrite (Hq _ (taskInit_inert (task (startingChangeSnapshot m))))
             | rewrite (Hq _ (taskInit_inert (task (endingChangeSnapshot m)))) ]);
  try unfold routeWait;
  repeat match goal with
         | |- context [if ?b then _ else _] => destruct b
         end;
  try reflexivity.

Lemma Update_launch (m : tfApplyModel) (msg : Msg) :
  countb isExecProcess (snd (Update m msg))
  = if isRunTfApply msg && negb (isNilContext (ctx m)) then 1 else 0.
Proof.
  unfold countb. destruct (isRunTfApply msg) eqn:Hmsg.
  - destruct msg; try discriminate Hmsg. rewrite Update_runTfApply.
    cbn [snd andb]. unfold tfApplyExecCmd, CommandContext.
    destruct (isNilContext (ctx m)); [reflexivity|].
    now destruct (String.eqb (viperGetString "aws-profile") "").
  - rewrite (Update_filter _ m msg quiet_isExecProcess Hmsg).
    destruct msg; try discriminate Hmsg;
      switch_cases quiet_isExecProcess m.
Qed.


Lemma Update_emit_apply (m : tfApplyModel) (msg : Msg) :
  countb isEmitRunTfApply (snd (Update m msg))
  = if isStartFinish m msg then 1 else 0.
Proof.
  unfold countb. destruct (isRunTfApply msg) eqn:Hmsg.
  - destruct msg; try discriminate Hmsg. rewrite Update_runTfApply.
    cbn [snd]. now destruct (tfApplyExecCmd m).
  - rewrite (Update_filter _ m msg quiet_isEmitRunTfApply Hmsg).
    destruct msg; try discriminate Hmsg;
      switch_cases quiet_isEmitRunTfApply m.
Qed.






Lemma launches_cons (m : tfApplyModel) (msg : Msg) (tr : list Msg) :
  launches (history m (msg :: tr))
  = (if isRunTfApply msg && negb (isNilContext (ctx m)) then 1 else 0)
    + launches (history (fst (Update m msg)) tr).
Proof.
  rewrite history_cons. unfold launches, issued. cbn [flat_map snd].
  now rewrite countb_app, Update_launch.
Qed.






End UpdateFacts.

(** * The model at work *)

(** ** Runs on concrete inputs *)

Example demoWithPlan_fields :
  args demoWithPlan = ["apply"; "tfplan"]
  /\ planFile demoWithPlan = "tfplan"
  /\ needPlan demoWithPlan = false
  /\ needApproval demoWithPlan = false.
Proof. repeat split. Qed.

Example state_flag_eats_the_file :
  hasPlanSet demoOS ["-state"; "tfplan"] = false
  /\ hasPlanSet demoOS ["-state=old"; "tfplan"] = false
  /\ hasPlanSet demoOS ["-var"; "tfplan"] = true
  /\ hasPlanSet demoOS ["dir"] = false
  /\ hasPlanSet demoOS ["missing"] = false.
Proof. repeat split. Qed.

Example happyRun_counts :
  pending 0 0 (history demoWithPlan happyRun) = Some (0, 0)
  /\ launches (history demoWithPlan happyRun) = 1
  /\ endInits (history demoWithPlan happyRun) = 1.
Proof. repeat split. Qed.

Example demo_worker :
  runStartChange demoService demoWithPlan
  = ([changeIdentifiedMsg 7%N; startSnapshotMsg 1 "starting";
      progressSnapshotMsg 1 "STATE_TAKING_SNAPSHOT" 1 0;
      progressSnapshotMsg 1 "STATE_SAVING_SNAPSHOT" 5 3],
     finishSnapshotMsg 1 "STATE_SAVING_SNAPSHOT" 5 3).
Proof. reflexivity. Qed.

(** ** The cancellation watcher *)

(** C8 (amended): the watcher returns only once a signal has fired or the
    root context is done. It calls the cancellation function exactly once
    when it takes the signal case and not at all when it takes the context
    case: woken by the context alone it never calls it, woken by a signal
    alone it always does, and when both are ready either may happen. *)
Theorem waitForCancellation_outcomes (choice : wakeup) (sig done : bool) :
  (runWatcher choice sig done = None <-> sig = false /\ done = false)
  /\ (forall n msg,
        runWatcher choice sig done = Some (n, msg) ->
        (n = 1 <-> selectCase choice sig done = Some sigFired)
        /\ (n = 0 <-> selectCase choice sig done = Some ctxDone)
        /\ (sig = false -> n = 0)
        /\ (done = false -> n = 1))
  /\ (sig = true -> done = true ->
      fst (waitForCancellation sigFired) = 1
      /\ option_map fst (runWatcher sigFired sig done) = Some 1
      /\ option_map fst (runWatcher ctxDone sig done) = Some 0).
Proof.
  unfold runWatcher, selectCase. split; [|split].
  - destruct sig, done; split; try discriminate; try (intros [? ?]; discriminate);
      auto.
  - intros n msg H.
    destruct sig, done; try discriminate H;
      try (destruct choice); cbn in H; injection H as <- <-;
      repeat split; try discriminate; try reflexivity; intros; discriminate.
  - intros -> ->. repeat split.
Qed.

(** C8 as stated fails: woken by the context, the watcher does not call
    the cancellation function. *)
Lemma waitForCancellation_context_done_no_cancel :
  ~ (forall w : wakeup,
       1 <= fst (waitForCancellation w)
       /\ snd (waitForCancellation w) = teaQuit).
Proof.
  intros H. destruct (H ctxDone) as [Hc _]. cbn in Hc. lia.
Qed.

(** ** The barrier on concrete runs *)

(** C1 as stated fails: after both completion messages have arrived, a
    further arrival of one of them hands out the barrier closure again. *)
Lemma barrier_refires_on_repeated_arrival :
  ~ (forall (m : tfApplyModel) (tr : list Msg),
       runPlanFinished m = false ->
       revlinkWarmupFinished m = false ->
       length (barrierFires (history m tr)) <= 1).
Proof.
  intros H.
  specialize (H demoFresh arrivalsRepeated eq_refl eq_refl).
  vm_compute in H. lia.
Qed.

Lemma barrier_fires_on_second_arrival_witness :
  barrierFires (history demoFresh arrivalsOnce) = [cmdBarrier true]
  /\ barrierFires (history demoFresh [runPlanFinishedMsg]) = [].
Proof.
  split.
  - exact (proj1 (barrier_fires_on_second_arrival demoFresh arrivalsOnce
                    eq_refl eq_refl (le_n 1) (le_n 1))).
  - exact (proj1 (barrier_fires_on_second_arrival demoFresh [runPlanFinishedMsg]
                    eq_refl eq_refl (le_S 0 0 (le_n 0)) (le_n 1))).
Defined.

(** ** The subprocess on concrete runs *)



Lemma demoReady_context : ctx demoReady <> nilContext.
Proof. discriminate. Defined.

Lemma bareReady_context :
  @ctx bareCollaborators bareReady <> nilContext.
Proof. discriminate. Defined.

Lemma aws_profile_environment_witness :
  (exists c,
     tfApplyExecCmd demoReady = Some c
     /\ childEnviron ["HOME=/root"; "AWS_PROFILE=dev"] c = ["AWS_PROFILE=prod"])
  /\ (exists c,
        @tfApplyExecCmd bareCollaborators bareReady = Some c
        /\ childEnviron ["HOME=/root"] c = ["HOME=/root"]).
Proof.
  split.
  - destruct (aws_profile_environment demoReady
                ["HOME=/root"; "AWS_PROFILE=dev"] demoReady_context)
      as [c [Hc [_ [H _]]]].
    exists c. split; [exact Hc|].
    refine (proj2 (H _)). discriminate.
  - destruct (@aws_profile_environment bareCollaborators bareReady
                ["HOME=/root"] bareReady_context)
      as [c [Hc [_ [_ H]]]].
    exists c. split; [exact Hc | exact (proj2 (H eq_refl))].
Defined.

(** ** Construction on concrete arguments *)

Lemma plan_supplied_skips_planning_witness :
  exists m pa,
    NewTfApplyModel demoOS 1 2 ["tfplan"] = Ok (m, pa)
    /\ Init m = []
    /\ runPlanFinished m = true
    /\ needPlan m = false.
Proof.
  exact (plan_supplied_skips_planning demoOS 1 2 ["tfplan"] eq_refl).
Defined.

Lemma plan_argument_detection_witness :
  hasPlanSet demoOS ["-var"; "tfplan"] = true
  /\ exists m,
       NewTfApplyModel demoOS 1 2 ["-state"; "tfplan"]
       = Ok (m, ["plan"; "-state"; "tfplan"; "-out"; "/tmp/overmind-plan1"])
       /\ planFile m = "/tmp/overmind-plan1"
       /\ needPlan m = true
       /\ args m = ["apply"; "-state"; "tfplan"; "/tmp/overmind-plan1"].
Proof.
  split.
  - reflexivity.
  - refine (proj2 (proj2 (plan_argument_detection demoOS 1 2 ["-state"; "tfplan"]
                            _ eq_refl)) eq_refl "/tmp/overmind-plan1" eq_refl).
    discriminate.
Defined.

(** ** The worker on a concrete service *)

Lemma start_change_worker_witness :
  snd (runStartChange demoService demoWithPlan)
  = finishSnapshotMsg 1 "STATE_SAVING_SNAPSHOT" 5 3.
Proof.
  destruct (start_change_worker demoService demoWithPlan)
    as [_ [_ [_ [H _]]]].
  destruct (H "https://tickets/1" 7%N eq_refl eq_refl) as [_ [_ Hs]].
  destruct (Hs (mkStream [mkResponse "STATE_TAKING_SNAPSHOT" 1 0;
                          mkResponse "STATE_SAVING_SNAPSHOT" 5 3] None) eq_refl)
    as [_ [_ [Hfin _]]].
  exact (Hfin eq_refl).
Defined.

(** ** The snapshot on events that are not its own *)

(** C4 at a failing input: the ending snapshot, whose identity is 2, is
    handed the start event of the starting snapshot, whose identity is 1,
    and takes over its phase label; [Update] of the orchestrator hands
    every message to both snapshots, so this happens in every run. *)
Lemma snapshotUpdate_foreign_event_changes_state :
  let s := NewSnapShotModel 2 "Ending Change" in
  spinnerID (spinner (task s)) = 2%Z
  /\ visibleState s = ("pending", 0%N, 0%N, taskStatusPending)
  /\ visibleState (fst (snapshotUpdate s (startSnapshotMsg 1 "starting")))
     = ("starting", 0%N, 0%N, taskStatusPending)
  /\ visibleState
       (endingChangeSnapshot
          (fst (Update demoWithPlan
                  (progressSnapshotMsg 1 "STATE_TAKING_SNAPSHOT" 4 2))))
     = ("STATE_TAKING_SNAPSHOT", 4%N, 2%N, taskStatusPending).
Proof. cbv zeta. repeat split. Qed.

(** C5 at a failing input: a finish event addressed to the snapshot sets
    label and counters as the progress event does, and the status stays
    pending instead of becoming done. *)
Lemma snapshotUpdate_finish_leaves_status :
  let s := NewSnapShotModel 1 "Starting Change" in
  snapshotUpdate s (finishSnapshotMsg 1 "done" 5 3)
  = snapshotUpdate s (progressSnapshotMsg 1 "done" 5 3)
  /\ visibleState (fst (snapshotUpdate s (finishSnapshotMsg 1 "done" 5 3)))
     = ("done", 5%N, 3%N, taskStatusPending)
  /\ status (task (fst (snapshotUpdate s (finishSnapshotMsg 1 "done" 5 3))))
     <> taskStatusDone.
Proof. cbv zeta. repeat split. discriminate. Qed.

(** * Further properties of the orchestrator *)

Section ConstructionFacts.
Context `{C : Collaborators}.

(** ** Arguments and the plan file *)

Lemma autoapproveStep_value (acc : bool) (a : string) :
  autoapproveStep acc a
  = match autoApproveValue a with Some v => v | None => acc end.
Proof.
  unfold autoapproveStep, autoApproveValue. cbn [existsb].
  repeat match goal with
         | |- context [String.eqb a ?c] =>
             let E := fresh "E" in
             destruct (String.eqb a c) eqn:E;
             [apply String.eqb_eq in E; subst a; reflexivity|]
         end.
  reflexivity.
Qed.

Lemma autoapprove_no_flag (l : list string) (acc : bool) :
  noApproveFlag l -> fold_left autoapproveStep l acc = acc.
Proof.
  intros H. revert acc. induction H as [|a l Ha _ IH]; intros acc; cbn.
  - reflexivity.
  - rewrite autoapproveStep_value, Ha. apply IH.
Qed.

Lemma autoapprove_last_flag (l1 l2 : list string) (f : string) (v acc : bool) :
  autoApproveValue f = Some v -> noApproveFlag l2 ->
  fold_left autoapproveStep (l1 ++ f :: l2) acc = v.
Proof.
  intros Hf Hl2. rewrite fold_left_app. cbn.
  rewrite autoapproveStep_value, Hf. now apply autoapprove_no_flag.
Qed.

Lemma NewTfApplyModel_approval (os : OS) (sid eid : Z) (a : list string)
      (tmp : string) (m : tfApplyModel) (pa : list string) :
  hasPlanSet os a = false ->
  osCreateTemp os = Ok tmp ->
  NewTfApplyModel os sid eid a = Ok (m, pa) ->
  needApproval m = negb (fold_left autoapproveStep (a ++ [tmp]) false).
Proof.
  intros H Ht. unfold NewTfApplyModel. rewrite H, Ht. cbn.
  intros E. injection E as <- _. reflexivity.
Qed.

(** X1: when the plan is generated, approval is decided by the last
    auto-approve flag among the arguments followed by the name of the
    temporary file: approval is asked for when that flag is one of the
    four false forms or when there is no such flag, and not asked for when
    it is one of the six true forms. *)
Theorem approval_decided_by_last_flag
        (os : OS) (sid eid : Z) (a : list string) (tmp : string)
        (m : tfApplyModel) (pa : list string) :
  hasPlanSet os a = false ->
  osCreateTemp os = Ok tmp ->
  NewTfApplyModel os sid eid a = Ok (m, pa) ->
  (noApproveFlag (a ++ [tmp]) -> needApproval m = true)
  /\ (forall l1 f l2 v,
        (a ++ [tmp])%list = (l1 ++ f :: l2)%list ->
        autoApproveValue f = Some v ->
        noApproveFlag l2 ->
        needApproval m = negb v).
Proof.
  intros H Ht Hnew.
  rewrite (NewTfApplyModel_approval os sid eid a tmp m pa H Ht Hnew).
  split.
  - intros Hno. now rewrite autoapprove_no_flag.
  - intros l1 f l2 v -> Hf Hl2.
    now rewrite (autoapprove_last_flag l1 l2 f v false Hf Hl2).
Qed.

Lemma hasPlanSet_nonempty (os : OS) (a : list string) :
  hasPlanSet os a = true -> a <> [] /\ osStat os (lastArg a) = Some false.
Proof.
  unfold hasPlanSet. destruct a as [|x a]; [discriminate|].
  cbn [length Nat.leb].
  destruct (osStat os (lastArg (x :: a))) as [[|]|]; try discriminate.
  intros _. split; [discriminate | reflexivity].
Qed.

Lemma hasPlanSet_no_file (os : OS) (a : list string) :
  a = [] \/ osStat os (lastArg a) = Some true \/ osStat os (lastArg a) = None ->
  hasPlanSet os a = false.
Proof.
  intros H. destruct (hasPlanSet os a) eqn:E; [|reflexivity].
  destruct (hasPlanSet_nonempty os a E) as [Hne Hst].
  destruct H as [H|[H|H]]; congruence.
Qed.

(** X2: with no arguments, or when the last argument is a directory or
    cannot be stat'ed, nothing is taken as the plan: construction, when
    the temporary file can be created, asks for a plan, leaves
    [runPlanFinished] unset, makes the temporary file the plan file,
    appends it to the apply arguments and, after "-out", to the plan
    arguments, and [Init] schedules the plan task and the submit task. *)
Theorem plan_generated_without_file
        (os : OS) (sid eid : Z) (a : list string) (tmp : string) :
  a = [] \/ osStat os (lastArg a) = Some true \/ osStat os (lastArg a) = None ->
  osCreateTemp os = Ok tmp ->
  exists m,
    NewTfApplyModel os sid eid a
    = Ok (m, ("plan" :: planArgsFromApplyArgs a ++ ["-out"; tmp])%list)
    /\ needPlan m = true
    /\ runPlanFinished m = false
    /\ planFile m = tmp
    /\ args m = ("apply" :: a ++ [tmp])%list
    /\ Init m
       = Batch [liftForeign "runPlan" (runPlanInit (runPlanTask m));
                liftForeign "submitPlan" (submitPlanInit (submitPlanTask m))].
Proof.
  intros H Ht. apply hasPlanSet_no_file in H.
  destruct (NewTfApplyModel_plan_unset os sid eid a tmp H Ht)
    as [m [Hn [Hpf [Hneed [Hfin Hargs]]]]].
  exists m. repeat split; try assumption.
  unfold Init. now rewrite Hneed.
Qed.

(** X3: construction fails exactly when no plan was supplied and the
    temporary file cannot be created, and then with the error of
    [os.CreateTemp]. *)
Theorem construction_fails_only_on_temp_file
        (os : OS) (sid eid : Z) (a : list string) (e : error) :
  NewTfApplyModel os sid eid a = Err e
  <-> hasPlanSet os a = false /\ osCreateTemp os = Err e.
Proof.
  unfold NewTfApplyModel. destruct (hasPlanSet os a).
  - split; [discriminate | intros [H _]; discriminate H].
  - destruct (osCreateTemp os) as [tmp|e0].
    + split; [discriminate | intros [_ H]; discriminate H].
    + split; [intros H; injection H as ->; now split
             | intros [_ H]; injection H as ->; reflexivity].
Qed.

Lemma last_cons_nonempty (x : string) (l : list string) :
  l <> [] -> last (x :: l) "" = last l "".
Proof. destruct l; [congruence | reflexivity]. Qed.

Lemma NewTfApplyModel_args (os : OS) (sid eid : Z) (a : list string)
      (m : tfApplyModel) (pa : list string) :
  NewTfApplyModel os sid eid a = Ok (m, pa) ->
  hd "" (args m) = "apply" /\ last (args m) "" = planFile m.
Proof.
  intros Hnew.
  destruct (hasPlanSet os a) eqn:H.
  - destruct (NewTfApplyModel_plan_set os sid eid a H)
      as [m0 [Hn [Hpf [_ [_ [_ Hargs]]]]]].
    rewrite Hn in Hnew. injection Hnew as <- _.
    rewrite Hargs, Hpf. split; [reflexivity|].
    apply last_cons_nonempty. now apply hasPlanSet_nonempty in H.
  - destruct (osCreateTemp os) as [tmp|e] eqn:Ht.
    + destruct (NewTfApplyModel_plan_unset os sid eid a tmp H Ht)
        as [m0 [Hn [Hpf [_ [_ Hargs]]]]].
      rewrite Hn in Hnew. injection Hnew as <- _.
      rewrite Hargs, Hpf. split; [reflexivity|].
      change ("apply" :: a ++ [tmp])%list with (("apply" :: a) ++ [tmp])%list.
      apply last_last.
    + unfold NewTfApplyModel in Hnew. rewrite H, Ht in Hnew. discriminate.
Qed.

(** The arguments before a flag and a file. *)
Lemma lastArg_snoc2 (pre : list string) (prev file : string) :
  lastArg (pre ++ [prev; file]) = file
  /\ prevArg (pre ++ [prev; file]) = prev
  /\ (2 <= length (pre ++ [prev; file]))%nat
  /\ (pre ++ [prev; file])%list <> [].
Proof.
  unfold lastArg, prevArg. rewrite length_app. cbn [length].
  repeat split.
  - change (pre ++ [prev; file])%list with (pre ++ [prev] ++ [file])%list.
    rewrite app_assoc. apply last_last.
  - replace (length pre + 2 - 2) with (length pre) by lia.
    apply nth_middle.
  - lia.
  - destruct pre; discriminate.
Qed.

Lemma prefix_cons (c1 c2 : ascii) (s1 s2 : string) :
  String.prefix (String c1 s1) (String c2 s2)
  = if ascii_dec c1 c2 then String.prefix s1 s2 else false.
Proof. reflexivity. Qed.

Lemma prefix_empty (s : string) : String.prefix "" s = true.
Proof. now destruct s. Qed.

Lemma prefix_append (a s : string) : String.prefix a (a ++ s) = true.
Proof.
  induction a as [|c a IH]; [apply prefix_empty|].
  change (String c a ++ s) with (String c (a ++ s)).
  rewrite prefix_cons. destruct (ascii_dec c c); [exact IH | congruence].
Qed.

Lemma prefix_dash (f rest prev : string) :
  String.prefix (String "-" f ++ rest) prev = true ->
  String.prefix "-" prev = true.
Proof.
  destruct prev as [|c prev]; [discriminate|].
  change (String "-" f ++ rest) with (String "-" (f ++ rest)).
  rewrite !prefix_cons.
  destruct (ascii_dec "-" c); [intros _; apply prefix_empty | discriminate].
Qed.

Lemma eatsNext_dash (prev : string) :
  eatsNext prev = true -> String.prefix "-" prev = true.
Proof.
  intros H. apply eatsNext_spec in H.
  destruct H as [f [Hin [->|Hp]]].
  - cbn in Hin. repeat destruct Hin as [<-|Hin]; try reflexivity.
    contradiction.
  - cbn in Hin.
    repeat destruct Hin as [<-|Hin]; try contradiction;
      exact (prefix_dash _ _ _ Hp).
Qed.

(** X17: when the last argument names an existing file, it is taken as
    the plan whenever the argument before it does not start with a dash;
    and it is not taken, and a plan is generated with the temporary file
    appended after it, whenever the argument before it is one of -backup,
    --backup, -state, --state, -state-out, --state-out, given bare or
    written as "<flag>=<anything>". *)
Theorem value_flags_block_plan
        (os : OS) (sid eid : Z) (pre : list string) (prev file : string) :
  osStat os file = Some false ->
  (String.prefix "-" prev = false ->
   exists m pa,
     NewTfApplyModel os sid eid (pre ++ [prev; file]) = Ok (m, pa)
     /\ needPlan m = false
     /\ planFile m = file)
  /\ (forall f s tmp,
        f = "-backup" \/ f = "--backup" \/ f = "-state" \/ f = "--state"
        \/ f = "-state-out" \/ f = "--state-out" ->
        prev = f \/ prev = (f ++ "=") ++ s ->
        osCreateTemp os = Ok tmp ->
        exists m pa,
          NewTfApplyModel os sid eid (pre ++ [prev; file]) = Ok (m, pa)
          /\ needPlan m = true
          /\ planFile m = tmp
          /\ args m = ("apply" :: (pre ++ [prev; file]) ++ [tmp])%list).
Proof.
  intros Hst.
  destruct (lastArg_snoc2 pre prev file) as [Hl [Hp [Hlen Hne]]].
  assert (Hset : hasPlanSet os (pre ++ [prev; file]) = negb (eatsNext prev)).
  { rewrite (hasPlanSet_file os _ Hne) by now rewrite Hl.
    apply Nat.leb_le in Hlen. now rewrite Hlen, Hp. }
  split.
  - intros Hdash.
    assert (He : eatsNext prev = false).
    { destruct (eatsNext prev) eqn:E; [|reflexivity].
      apply eatsNext_dash in E. congruence. }
    rewrite He in Hset.
    destruct (NewTfApplyModel_plan_set os sid eid _ Hset)
      as [m [Hn [Hpf [Hneed _]]]].
    exists m, ("plan" :: planArgsFromApplyArgs (pre ++ [prev; file])).
    repeat split; try assumption. now rewrite Hpf, Hl.
  - intros f s tmp Hf Hprev Ht.
    assert (He : eatsNext prev = true).
    { apply eatsNext_spec. exists f. split.
      - unfold eatingFlags. cbn [In].
        destruct Hf as [->|[->|[->|[->|[->| ->]]]]];
          repeat (first [left; reflexivity | right]).
      - destruct Hprev as [->| ->]; [now left | right; apply prefix_append]. }
    rewrite He in Hset.
    destruct (NewTfApplyModel_plan_unset os sid eid _ tmp Hset Ht)
      as [m [Hn [Hpf [Hneed [_ Hargs]]]]].
    eexists m, _. repeat split; eassumption.
Qed.

End ConstructionFacts.

Section RunFacts.
Context `{C : Collaborators}.

(** ** What a step of [Update] leaves alone *)

Lemma Update_unfold (m : tfApplyModel) (msg : Msg) :
  isRunTfApply msg = false ->
  Update m msg
  = (fst (updateChildren (fst (updateSwitch m msg)) msg
            (snd (updateSwitch m msg))),
     Batch (snd (updateChildren (fst (updateSwitch m msg)) msg
                   (snd (updateSwitch m msg))))).
Proof.
  intros Hmsg. unfold Update. destruct msg; try discriminate Hmsg;
    destruct (updateSwitch m _) as [m1 cmds]; cbn [fst snd];
    destruct (updateChildren m1 _ cmds) as [m2 cmds2]; reflexivity.
Qed.

Lemma updateChildren_fields (m : tfApplyModel) (msg : Msg) (cmds : list Cmd) :
  let m' := fst (updateChildren m msg cmds) in
  configuration m' = configuration m
  /\ ctx m' = ctx m /\ oi m' = oi m
  /\ changeUuid m' = changeUuid m
  /\ isStarting m' = isStarting m
  /\ runTfApply m' = runTfApply m
  /\ startingChangeSnapshot m'
     = fst (snapshotUpdate (startingChangeSnapshot m) msg)
  /\ endingChangeSnapshot m'
     = fst (snapshotUpdate (endingChangeSnapshot m) msg).
Proof.
  cbv zeta. unfold updateChildren, configuration.
  destruct (snapshotUpdate (startingChangeSnapshot m) msg) as [s1 c1].
  destruct (snapshotUpdate (endingChangeSnapshot m) msg) as [e1 c2].
  destruct (needPlan m) eqn:Hnp.
  - destruct (runPlanUpdate (runPlanTask m) msg) as [rp c3].
    destruct (submitPlanUpdate (submitPlanTask m) msg) as [sp c4].
    cbn. repeat split.
  - cbn. repeat split.
Qed.

Lemma updateSwitch_fields (m : tfApplyModel) (msg : Msg) :
  let m' := fst (updateSwitch m msg) in
  configuration m' = configuration m
  /\ startingChangeSnapshot m' = startingChangeSnapshot m
  /\ endingChangeSnapshot m' = endingChangeSnapshot m
  /\ changeUuid m'
     = match msg with changeIdentifiedMsg u => u | _ => changeUuid m end
  /\ (ctx m', oi m')
     = match msg with
       | loadSourcesConfigMsg c o => (c, o)
       | _ => (ctx m, oi m)
       end.
Proof.
  cbv zeta. destruct msg; cbn; try (repeat split; fail).
  destruct (id =? startID m)%Z; [|destruct (id =? endID m)%Z];
    cbn; repeat split.
Qed.

Lemma Update_fields (m : tfApplyModel) (msg : Msg) :
  let m' := fst (Update m msg) in
  configuration m' = configuration m
  /\ changeUuid m'
     = match msg with changeIdentifiedMsg u => u | _ => changeUuid m end
  /\ (ctx m', oi m')
     = match msg with
       | loadSourcesConfigMsg c o => (c, o)
       | _ => (ctx m, oi m)
       end
  /\ startingChangeSnapshot m'
     = (if isRunTfApply msg then startingChangeSnapshot m
        else fst (snapshotUpdate (startingChangeSnapshot m) msg))
  /\ endingChangeSnapshot m'
     = (if isRunTfApply msg then endingChangeSnapshot m
        else fst (snapshotUpdate (endingChangeSnapshot m) msg)).
Proof.
  cbv zeta. destruct (isRunTfApply msg) eqn:Hmsg.
  - destruct msg; try discriminate Hmsg. rewrite Update_runTfApply.
    cbn [fst]. repeat split.
  - rewrite (Update_unfold m msg Hmsg). cbn [fst].
    destruct (updateChildren_fields (fst (updateSwitch m msg)) msg
                (snd (updateSwitch m msg)))
      as [H1 [H2 [H3 [H4 [_ [_ [H7 H8]]]]]]].
    destruct (updateSwitch_fields m msg) as [G1 [G2 [G3 [G4 G5]]]].
    rewrite H1, G1, H4, G4, H2, H3, G5, H7, G2, H8, G3. repeat split.
Qed.

Lemma runModel_app (p q : list Msg) (m : tfApplyModel) :
  runModel m (p ++ q) = runModel (runModel m p) q.
Proof. revert m. induction p as [|x p IH]; intros m; cbn; [reflexivity|apply IH]. Qed.

Lemma run_configuration (tr : list Msg) :
  forall m, configuration (runModel m tr) = configuration m.
Proof.
  induction tr as [|msg tr IH]; intros m; [reflexivity|].
  cbn [runModel]. rewrite IH. apply Update_fields.
Qed.

(** X5: no run of the loop changes what construction fixed: the arguments
    for terraform, the plan file, whether a plan is needed, whether
    approval is needed, the header and the progress lines are the same
    after any sequence of messages. *)
Theorem run_keeps_configuration (m : tfApplyModel) (tr : list Msg) :
  args (runModel m tr) = args m
  /\ planFile (runModel m tr) = planFile m
  /\ needPlan (runModel m tr) = needPlan m
  /\ needApproval (runModel m tr) = needApproval m
  /\ processingHeader (runModel m tr) = processingHeader m
  /\ progress (runModel m tr) = progress m.
Proof.
  pose proof (run_configuration tr m) as H.
  unfold configuration in H. injection H as H1 H2 H3 H4 H5 H6.
  repeat split; assumption.
Qed.

Lemma lastPick_acc {A B : Type} (pick : B -> option A)
      (tr : list B) (acc : option A) :
  fold_left (fun a x => match pick x with Some v => Some v | None => a end)
            tr acc
  = match lastPick pick tr with
    | Some v => Some v
    | None => acc
    end.
Proof.
  unfold lastPick. revert acc.
  induction tr as [|x tr IH]; intros acc; cbn [fold_left]; [reflexivity|].
  rewrite IH. rewrite (IH (match pick x with Some v => Some v | None => None end)).
  destruct (fold_left _ tr None); [reflexivity|].
  now destruct (pick x).
Qed.

Lemma lastPick_cons {A B : Type} (pick : B -> option A) (x : B) (tr : list B) :
  lastPick pick (x :: tr)
  = match lastPick pick tr with
    | Some v => Some v
    | None => pick x
    end.
Proof.
  unfold lastPick at 1. cbn [fold_left]. rewrite lastPick_acc.
  destruct (lastPick pick tr); [reflexivity|]. now destruct (pick x).
Qed.

Lemma lastPick_none {A B : Type} (pick : B -> option A) (tr : list B) :
  (forall x, In x tr -> pick x = None) -> lastPick pick tr = None.
Proof.
  induction tr as [|x tr IH]; intros H; [reflexivity|].
  rewrite lastPick_cons, IH by (intros y Hy; apply H; now right).
  apply H. now left.
Qed.

Lemma run_changeUuid (tr : list Msg) :
  forall m,
    changeUuid (runModel m tr)
    = match lastIdentified tr with Some u => u | None => changeUuid m end.
Proof.
  induction tr as [|msg tr IH]; intros m; [reflexivity|].
  cbn [runModel]. rewrite IH. unfold lastIdentified. rewrite lastPick_cons.
  destruct (lastPick identifiedBy tr); [reflexivity|].
  destruct (Update_fields m msg) as [_ [H _]]. rewrite H. now destruct msg.
Qed.

Lemma run_context (tr : list Msg) :
  forall m,
    (ctx (runModel m tr), oi (runModel m tr))
    = match lastConfig tr with Some co => co | None => (ctx m, oi m) end.
Proof.
  induction tr as [|msg tr IH]; intros m; [reflexivity|].
  cbn [runModel]. rewrite IH. unfold lastConfig. rewrite lastPick_cons.
  destruct (lastPick configOf tr); [reflexivity|].
  destruct (Update_fields m msg) as [_ [_ [H _]]]. rewrite H. now destruct msg.
Qed.

(** X6: after any run, [runTfApplyMsg] launches "terraform" with the
    arguments fixed at construction, bound to the context of the last
    [loadSourcesConfigMsg] of the run (the context the model started with
    when there was none), provided that context is not nil; when it is
    nil, as for a constructed model that has seen no
    [loadSourcesConfigMsg], [Update] panics in [exec.CommandContext] and
    launches nothing. *)
Theorem launched_command_after_run (m : tfApplyModel) (tr : list Msg) :
  let m' := runModel m tr in
  let co := match lastConfig tr with Some co => co | None => (ctx m, oi m) end in
  (fst co <> nilContext ->
   exists c,
     Update m' runTfApplyMsg = (m', [cmdExecProcess c tfApplyCallback])
     /\ cmdName c = "terraform"
     /\ cmdArgs c = "terraform" :: args m
     /\ cmdCtx c = fst co)
  /\ (fst co = nilContext ->
      Update m' runTfApplyMsg = (m', [cmdPanicked "nil Context"])).
Proof.
  cbv zeta.
  assert (Hargs : args (runModel m tr) = args m).
  { pose proof (run_configuration tr m) as H. unfold configuration in H.
    now injection H. }
  pose proof (run_context tr m) as Hctx.
  assert (Hc : ctx (runModel m tr)
               = fst (match lastConfig tr with
                      | Some co => co
                      | None => (ctx m, oi m)
                      end))
    by now rewrite <- Hctx.
  rewrite <- Hc. split; intros H.
  - eexists. rewrite Update_runTfApply, (tfApplyExecCmd_ready _ H).
    split; [reflexivity|]. cbn [cmdName cmdArgs cmdCtx].
    rewrite Hargs. repeat split.
  - apply Update_runTfApply_nil. exact H.
Qed.

(** X4: in every model that construction returns, and after any run of
    it, the arguments handed to terraform start with "apply" and end with
    the plan file, whether the plan was supplied or generated; whenever
    the subprocess command is built, which needs the context to be set, it
    is "terraform" followed by these arguments, so the plan file is its
    last argument. *)
Theorem plan_file_is_last_argument
        (os : OS) (sid eid : Z) (a : list string)
        (m : tfApplyModel) (pa : list string) (tr : list Msg) :
  NewTfApplyModel os sid eid a = Ok (m, pa) ->
  hd "" (args (runModel m tr)) = "apply"
  /\ last (args (runModel m tr)) "" = planFile (runModel m tr)
  /\ planFile (runModel m tr) = planFile m
  /\ (forall c,
        tfApplyExecCmd (runModel m tr) = Some c ->
        cmdName c = "terraform"
        /\ cmdArgs c = "terraform" :: args m
        /\ last (cmdArgs c) "" = planFile m).
Proof.
  intros Hnew.
  destruct (NewTfApplyModel_args os sid eid a m pa Hnew) as [Hhd Hlast].
  pose proof (run_configuration tr m) as Hcfg. unfold configuration in Hcfg.
  injection Hcfg as Hargs Hpf _ _ _ _.
  rewrite Hargs, Hpf.
  split; [exact Hhd|]. split; [exact Hlast|]. split; [reflexivity|].
  intros c Hc. unfold tfApplyExecCmd, CommandContext in Hc.
  destruct (isNilContext (ctx (runModel m tr))); [discriminate Hc|].
  assert (Hnonempty : args m <> [])
    by (destruct (args m); [discriminate Hhd | discriminate]).
  assert (Hc' : cmdName c = "terraform"
                /\ cmdArgs c = "terraform" :: args (runModel m tr)).
  { destruct (String.eqb (viperGetString "aws-profile") "");
      injection Hc as <-; split; reflexivity. }
  destruct Hc' as [H1 H2]. rewrite Hargs in H2.
  split; [exact H1|]. split; [exact H2|].
  rewrite H2, (last_cons_nonempty "terraform" (args m) Hnonempty).
  exact Hlast.
Qed.

Lemma In_Batch (c : Cmd) (l : list Cmd) :
  isNilCmd c = false -> In c l -> In c (Batch l).
Proof.
  intros Hc Hin. unfold Batch. apply filter_In. split; [exact Hin|].
  now rewrite Hc.
Qed.

(** X7: the end-change worker started on [tfApplyFinishedMsg] after any
    run is given the change id of the last [changeIdentifiedMsg] of that
    run, and the context and instance of its last
    [loadSourcesConfigMsg]. *)
Theorem end_worker_gets_identified_change (m : tfApplyModel) (tr : list Msg) :
  let m' := runModel m tr in
  let co := match lastConfig tr with Some co => co | None => (ctx m, oi m) end in
  let u := match lastIdentified tr with Some u => u | None => changeUuid m end in
  In (cmdStartEndChange (fst co) (snd co) u (endID m'))
     (snd (Update m' tfApplyFinishedMsg)).
Proof.
  cbv zeta. rewrite <- (run_changeUuid tr m), <- (run_context tr m).
  rewrite (Update_unfold _ tfApplyFinishedMsg eq_refl). cbn [snd fst].
  destruct (updateChildren_spec
              (fst (updateSwitch (runModel m tr) tfApplyFinishedMsg))
              tfApplyFinishedMsg
              (snd (updateSwitch (runModel m tr) tfApplyFinishedMsg)))
    as [extra [He _]].
  rewrite He. apply In_Batch; [reflexivity|].
  apply in_or_app. left. cbn. right. left. reflexivity.
Qed.

(** ** The task model and the snapshots under [Update] *)

Lemma taskUpdate_idle (t : taskModel) (msg : Msg) :
  status t <> taskStatusRunning -> fst (taskUpdate t msg) = t.
Proof.
  intros Hs. unfold taskUpdate.
  destruct (isKeyMsg msg) as [k|]; [now destruct (String.eqb k "q")|].
  destruct (status t); cbn; try reflexivity. congruence.
Qed.

(** X8: no message changes the status or the title of a task; a task that
    is not running is not changed at all; the key "q" asks the loop to
    quit whatever the status, and any other key does nothing. *)
Theorem taskUpdate_frame (t : taskModel) (msg : Msg) :
  status (fst (taskUpdate t msg)) = status t
  /\ title (fst (taskUpdate t msg)) = title t
  /\ (status t <> taskStatusRunning -> fst (taskUpdate t msg) = t)
  /\ taskUpdate t (KeyMsg "q") = (t, cmdQuit)
  /\ (forall k, k <> "q" -> taskUpdate t (KeyMsg k) = (t, cmdNil)).
Proof.
  unfold taskUpdate. repeat split.
  - destruct (isKeyMsg msg) as [k|]; [now destruct (String.eqb k "q")|].
    destruct (status t) eqn:E; cbn; try exact E.
    now destruct (spinnerUpdate (spinner t) msg).
  - destruct (isKeyMsg msg) as [k|]; [now destruct (String.eqb k "q")|].
    destruct (status t); cbn; try reflexivity.
    now destruct (spinnerUpdate (spinner t) msg).
  - apply taskUpdate_idle.
  - intros k Hk. cbn. apply String.eqb_neq in Hk. now rewrite Hk.
Qed.

Lemma snapshotUpdate_task_idle (sn : snapshotModel) (msg : Msg) :
  status (task sn) <> taskStatusRunning ->
  task (fst (snapshotUpdate sn msg)) = task sn.
Proof.
  intros Hs.
  pose proof (taskUpdate_idle (task sn) msg Hs) as H. unfold snapshotUpdate.
  destruct msg; try reflexivity;
    destruct (taskUpdate (task sn) _) as [t c]; exact H.
Qed.

Lemma run_snapshot_tasks (tr : list Msg) :
  forall m,
    status (task (startingChangeSnapshot m)) <> taskStatusRunning ->
    status (task (endingChangeSnapshot m)) <> taskStatusRunning ->
    task (startingChangeSnapshot (runModel m tr)) = task (startingChangeSnapshot m)
    /\ task (endingChangeSnapshot (runModel m tr)) = task (endingChangeSnapshot m).
Proof.
  induction tr as [|msg tr IH]; intros m Hs He; [split; reflexivity|].
  cbn [runModel].
  destruct (Update_fields m msg) as [_ [_ [_ [H1 H2]]]].
  assert (G1 : task (startingChangeSnapshot (fst (Update m msg)))
               = task (startingChangeSnapshot m)).
  { rewrite H1. destruct (isRunTfApply msg); [reflexivity|].
    now apply snapshotUpdate_task_idle. }
  assert (G2 : task (endingChangeSnapshot (fst (Update m msg)))
               = task (endingChangeSnapshot m)).
  { rewrite H2. destruct (isRunTfApply msg); [reflexivity|].
    now apply snapshotUpdate_task_idle. }
  destruct (IH (fst (Update m msg))) as [K1 K2].
  - now rewrite G1.
  - now rewrite G2.
  - rewrite K1, K2, G1, G2. split; reflexivity.
Qed.

Lemma NewTfApplyModel_snapshots (os : OS) (sid eid : Z) (a : list string)
      (m : tfApplyModel) (pa : list string) :
  NewTfApplyModel os sid eid a = Ok (m, pa) ->
  startingChangeSnapshot m = NewSnapShotModel sid "Starting Change"
  /\ endingChangeSnapshot m = NewSnapShotModel eid "Ending Change"
  /\ revlinkWarmupFinished m = false
  /\ isStarting m = false /\ runTfApply m = false /\ isEnding m = false.
Proof.
  unfold NewTfApplyModel. destruct (hasPlanSet os a).
  - intros E. injection E as <- _. repeat split.
  - destruct (osCreateTemp os); [|discriminate].
    intros E. injection E as <- _. repeat split.
Qed.

(** X9: in a run of a constructed model the task models of both snapshots
    stay as construction made them, whatever messages arrive: their
    identities remain the two drawn at construction, so the routing by
    identity in [Update] always compares against the same two values, and
    their status remains pending. *)
Theorem snapshot_identities_stable
        (os : OS) (sid eid : Z) (a : list string)
        (m : tfApplyModel) (pa : list string) (tr : list Msg) :
  NewTfApplyModel os sid eid a = Ok (m, pa) ->
  task (startingChangeSnapshot (runModel m tr))
  = NewTaskModel sid "Starting Change"
  /\ task (endingChangeSnapshot (runModel m tr))
     = NewTaskModel eid "Ending Change"
  /\ startID (runModel m tr) = sid
  /\ endID (runModel m tr) = eid.
Proof.
  intros Hnew.
  destruct (NewTfApplyModel_snapshots os sid eid a m pa Hnew) as [Hs [He _]].
  destruct (run_snapshot_tasks tr m) as [K1 K2].
  - rewrite Hs. discriminate.
  - rewrite He. discriminate.
  - unfold startID, endID. rewrite K1, K2, Hs, He. repeat split.
Qed.

(** X10: in every state the key "q" makes [Update] hand [tea.Quit] to the
    loop, and leaves both snapshots, the barrier flags and the phase flags
    as they were. *)
Theorem quit_key_requests_shutdown (m : tfApplyModel) :
  let r := Update m (KeyMsg "q") in
  In cmdQuit (snd r)
  /\ startingChangeSnapshot (fst r) = startingChangeSnapshot m
  /\ endingChangeSnapshot (fst r) = endingChangeSnapshot m
  /\ runPlanFinished (fst r) = runPlanFinished m
  /\ revlinkWarmupFinished (fst r) = revlinkWarmupFinished m.
Proof.
  cbv zeta. split.
  - rewrite (Update_unfold m (KeyMsg "q") eq_refl). cbn [snd fst updateSwitch].
    apply In_Batch; [reflexivity|].
    unfold updateChildren. cbn.
    destruct (needPlan m).
    + destruct (runPlanUpdate (runPlanTask m) (KeyMsg "q")) as [rp c3].
      destruct (submitPlanUpdate (submitPlanTask m) (KeyMsg "q")) as [sp c4].
      cbn. now left.
    + cbn. now left.
  - destruct (Update_fields m (KeyMsg "q")) as [_ [_ [_ [H1 H2]]]].
    destruct (Update_flags m (KeyMsg "q")) as [_ [F1 F2]].
    cbn [isRunTfApply] in H1, H2. rewrite H1, H2, F1, F2, !orb_false_r.
    assert (K : forall sn, fst (snapshotUpdate sn (KeyMsg "q")) = sn)
      by (intros [t st i e]; reflexivity).
    rewrite !K. repeat split.
Qed.

(** ** Draining the two channels *)

Lemma quiet_isWaitStart : quiet isWaitStart.
Proof. intros c; destruct c; cbn; congruence. Qed.

Lemma quiet_isWaitEnd : quiet isWaitEnd.
Proof. intros c; destruct c; cbn; congruence. Qed.

Lemma quiet_isEmitDelayQuit : quiet isEmitDelayQuit.
Proof. intros c; destruct c; cbn; congruence. Qed.

(** Case analysis over the switch, as before, for the tests of this
    section. *)
Ltac route_cases Hq m :=
  cbn;
  try (unfold snapshotInit; cbn;
       first [ rewrite (Hq _ (taskInit_inert (task (startingChangeSnapshot m))))
             | rewrite (Hq _ (taskInit_inert (task (endingChangeSnapshot m)))) ]);
  try unfold routeWait;
  try match goal with
      | |- context [(?i =? startID m)%Z] =>
          destruct (i =? startID m)%Z, (i =? endID m)%Z
      end;
  cbn;
  repeat match goal with
         | |- context [if ?b then _ else _] => destruct b
         end;
  try reflexivity.

Lemma Update_wait_start (m : tfApplyModel) (msg : Msg) :
  countb isWaitStart (snd (Update m msg))
  = if armsStartWait m msg then 1 else 0.
Proof.
  unfold countb. destruct (isRunTfApply msg) eqn:Hmsg.
  - destruct msg; try discriminate Hmsg. rewrite Update_runTfApply.
    cbn [snd]. now destruct (tfApplyExecCmd m).
  - rewrite (Update_filter _ m msg quiet_isWaitStart Hmsg).
    destruct msg; try discriminate Hmsg; route_cases quiet_isWaitStart m.
Qed.

Lemma Update_wait_end (m : tfApplyModel) (msg : Msg) :
  countb isWaitEnd (snd (Update m msg))
  = if armsEndWait m msg then 1 else 0.
Proof.
  unfold countb. destruct (isRunTfApply msg) eqn:Hmsg.
  - destruct msg; try discriminate Hmsg. rewrite Update_runTfApply.
    cbn [snd]. now destruct (tfApplyExecCmd m).
  - rewrite (Update_filter _ m msg quiet_isWaitEnd Hmsg).
    destruct msg; try discriminate Hmsg; route_cases quiet_isWaitEnd m.
Qed.

Lemma Update_delay_quit (m : tfApplyModel) (msg : Msg) :
  countb isEmitDelayQuit (snd (Update m msg))
  = if isEndFinish m msg then 1 else 0.
Proof.
  unfold countb. destruct (isRunTfApply msg) eqn:Hmsg.
  - destruct msg; try discriminate Hmsg. rewrite Update_runTfApply.
    cbn [snd]. now destruct (tfApplyExecCmd m).
  - rewrite (Update_filter _ m msg quiet_isEmitDelayQuit Hmsg).
    destruct msg; try discriminate Hmsg; route_cases quiet_isEmitDelayQuit m.
Qed.

Lemma idle_step (m : tfApplyModel) (msg : Msg) :
  idle m ->
  idle (fst (Update m msg))
  /\ startID (fst (Update m msg)) = startID m
  /\ endID (fst (Update m msg)) = endID m.
Proof.
  intros [Hs He].
  destruct (run_snapshot_tasks [msg] m Hs He) as [K1 K2]. cbn [runModel] in K1, K2.
  unfold idle, startID, endID. rewrite K1, K2. repeat split; assumption.
Qed.

(** Counting over a run a kind of command that each step hands out at
    most once, decided by the identities of the two snapshots. *)
Lemma count_over_run (p : Cmd -> bool)
      (trig : tfApplyModel -> Msg -> bool) :
  (forall m msg, countb p (snd (Update m msg)) = if trig m msg then 1 else 0) ->
  (forall m m' msg, startID m' = startID m -> endID m' = endID m ->
                    trig m' msg = trig m msg) ->
  forall tr m,
    idle m ->
    countb p (issued (history m tr)) = countb (trig m) tr.
Proof.
  intros Hstep Hid. induction tr as [|msg tr IH]; intros m Hidle; [reflexivity|].
  rewrite history_cons. unfold issued. cbn [flat_map snd].
  rewrite countb_app, countb_cons, Hstep. f_equal.
  destruct (idle_step m msg Hidle) as [Hidle' [Hs He]].
  fold (issued (history (fst (Update m msg)) tr)).
  rewrite (IH _ Hidle'). unfold countb. f_equal.
  apply filter_ext. intros x. now apply Hid.
Qed.

Lemma waits_over_run (m : tfApplyModel) (tr : list Msg) :
  idle m ->
  countb isWaitStart (issued (history m tr)) = countb (armsStartWait m) tr
  /\ countb isWaitEnd (issued (history m tr)) = countb (armsEndWait m) tr.
Proof.
  intros Hidle. split.
  - apply (count_over_run isWaitStart armsStartWait Update_wait_start);
      [|exact Hidle].
    intros m1 m2 msg Hs He. destruct msg; cbn; rewrite ?Hs, ?He; reflexivity.
  - apply (count_over_run isWaitEnd armsEndWait Update_wait_end);
      [|exact Hidle].
    intros m1 m2 msg Hs He. destruct msg; cbn; rewrite ?Hs, ?He; reflexivity.
Qed.

(** X11: while the snapshots are not running, a run arms exactly one
    receive on the starting channel for each [startStartingSnapshotMsg],
    each [changeIdentifiedMsg] and each start or progress event addressed
    to the starting snapshot, and exactly one receive on the ending
    channel for each [tfApplyFinishedMsg] and each start or progress event
    addressed to the ending snapshot and not to the starting one. *)
Theorem receives_armed_per_message (m : tfApplyModel) (tr : list Msg) :
  idle m ->
  countb isWaitStart (issued (history m tr)) = countb (armsStartWait m) tr
  /\ countb isWaitEnd (issued (history m tr)) = countb (armsEndWait m) tr.
Proof. apply waits_over_run. Qed.

(** ** The workers and the loop together *)

Lemma Update_phase (m : tfApplyModel) (msg : Msg) :
  isStarting (fst (Update m msg))
  = (if isStartFinish m msg then false
     else match msg with
          | startStartingSnapshotMsg => true
          | _ => isStarting m
          end)
  /\ runTfApply (fst (Update m msg))
     = (if isStartFinish m msg then true else runTfApply m).
Proof.
  destruct (isRunTfApply msg) eqn:Hmsg.
  - destruct msg; try discriminate Hmsg. rewrite Update_runTfApply.
    split; reflexivity.
  - rewrite (Update_unfold m msg Hmsg). cbn [fst].
    destruct (updateChildren_fields (fst (updateSwitch m msg)) msg
                (snd (updateSwitch m msg)))
      as [_ [_ [_ [_ [H5 [H6 _]]]]]].
    rewrite H5, H6.
    destruct msg; cbn; try (split; reflexivity).
    destruct (id =? startID m)%Z; [|destruct (id =? endID m)%Z];
      split; reflexivity.
Qed.

Lemma launches_none (tr : list Msg) :
  forall m, countb isRunTfApply tr = 0 -> launches (history m tr) = 0.
Proof.
  induction tr as [|msg tr IH]; intros m H; [reflexivity|].
  rewrite countb_cons in H. rewrite launches_cons.
  destruct (isRunTfApply msg); [discriminate H|].
  cbn [andb]. apply IH. exact H.
Qed.

Lemma emits_over_run (tr : list Msg) (m : tfApplyModel) :
  idle m ->
  countb isEmitRunTfApply (issued (history m tr)) = countb (isStartFinish m) tr
  /\ countb isEmitDelayQuit (issued (history m tr)) = countb (isEndFinish m) tr.
Proof.
  intros Hidle. split.
  - apply (count_over_run isEmitRunTfApply isStartFinish Update_emit_apply);
      [|exact Hidle].
    intros m1 m2 msg Hs He. destruct msg; cbn; rewrite ?Hs, ?He; reflexivity.
  - apply (count_over_run isEmitDelayQuit isEndFinish Update_delay_quit);
      [|exact Hidle].
    intros m1 m2 msg Hs He. destruct msg; cbn; rewrite ?Hs, ?He; reflexivity.
Qed.

Lemma idle_run (tr : list Msg) :
  forall m, idle m ->
            idle (runModel m tr)
            /\ startID (runModel m tr) = startID m
            /\ endID (runModel m tr) = endID m.
Proof.
  induction tr as [|msg tr IH]; intros m Hidle; [repeat split; apply Hidle|].
  cbn [runModel]. destruct (idle_step m msg Hidle) as [H1 [H2 H3]].
  destruct (IH _ H1) as [K1 [K2 K3]]. rewrite K2, K3, H2, H3.
  repeat split; apply K1.
Qed.

Lemma countb_progressOf (p : Msg -> bool) (m : tfApplyModel)
      (rs : list StartChangeResponse) (b : bool) :
  (forall l i e, p (ProgressMsg (startingChangeSnapshot m) l i e) = b) ->
  countb p (progressOf m rs) = if b then length rs else 0.
Proof.
  intros H. unfold progressOf. destruct b.
  - apply countb_map_all. intros r. apply H.
  - apply countb_map_none. intros r. apply H.
Qed.

(** X12: when the start-change worker succeeds, handling the messages it
    sent, in order, and then the finish event it returned leaves the
    model with the change id it identified, out of the starting phase and
    marked to run terraform, the starting snapshot showing the label and
    counts of the last stream message; along the way one receive was
    armed per message sent on the channel, the closure returning
    [runTfApplyMsg] was handed out exactly once, and no subprocess was
    launched yet. *)
Theorem start_worker_drives_loop
        (svc : ChangeService) (m : tfApplyModel)
        (t : string) (u : uuid) (st : ServerStream) :
  idle m ->
  resolveTicketLink svc m = Ok t ->
  getChangeUuid svc (ctx m) (oi m) t = Ok u ->
  StartChange svc (ctx m) (oi m) u = Ok st ->
  streamErr st = None ->
  let out := runStartChange svc m in
  let tr := (fst out ++ [snd out])%list in
  let m' := runModel m tr in
  let r := last (streamMsgs st) nilResponse in
  changeUuid m' = u
  /\ isStarting m' = false
  /\ runTfApply m' = true
  /\ state (startingChangeSnapshot m') = respState r
  /\ items (startingChangeSnapshot m') = respNumItems r
  /\ edges (startingChangeSnapshot m') = respNumEdges r
  /\ countb isWaitStart (issued (history m tr)) = length (fst out)
  /\ countb isEmitRunTfApply (issued (history m tr)) = 1
  /\ launches (history m tr) = 0.
Proof.
  intros Hidle Ht Hu Hst Herr. cbv zeta.
  rewrite (runStartChange_stream svc m t u st Ht Hu Hst), Herr. cbn [fst snd].
  set (r := last (streamMsgs st) nilResponse).
  set (sent := changeIdentifiedMsg u
                 :: StartMsg (startingChangeSnapshot m) "starting"
                 :: progressOf m (streamMsgs st)).
  set (fin := FinishMsg (startingChangeSnapshot m)
                (respState r) (respNumItems r) (respNumEdges r)).
  assert (Hsid : forall l i e,
             isStartFinish m (FinishMsg (startingChangeSnapshot m) l i e) = true)
    by (intros; cbn; apply Z.eqb_refl).
  destruct (idle_run sent m Hidle) as [Hidle1 [Hs1 He1]].
  assert (Hfin : isStartFinish (runModel m sent) fin = true).
  { unfold fin, FinishMsg, isStartFinish. rewrite Hs1. apply Z.eqb_refl. }
  rewrite runModel_app. cbn [runModel].
  destruct (Update_phase (runModel m sent) fin) as [P1 P2].
  destruct (Update_fields (runModel m sent) fin) as [_ [F2 [_ [F4 _]]]].
  rewrite P1, P2, Hfin, F2, F4.
  assert (R0 : countb isRunTfApply (sent ++ [fin]) = 0).
  { rewrite countb_app. unfold sent. rewrite !countb_cons.
    now rewrite (countb_progressOf isRunTfApply m _ false). }
  destruct (emits_over_run (sent ++ [fin]) m Hidle) as [E1 _].
  destruct (waits_over_run m (sent ++ [fin]) Hidle) as [W1 _].
  rewrite E1, (launches_none _ m R0), W1, !countb_app.
  assert (Hu' : changeUuid (runModel m sent) = u).
  { rewrite run_changeUuid. unfold sent, lastIdentified.
    rewrite lastPick_cons.
    assert (Hn : lastPick identifiedBy
                   (StartMsg (startingChangeSnapshot m) "starting"
                      :: progressOf m (streamMsgs st)) = None).
    { apply lastPick_none. intros x [<-|Hx]; [reflexivity|].
      unfold progressOf in Hx. apply in_map_iff in Hx.
      destruct Hx as [r0 [<- _]]. reflexivity. }
    now rewrite Hn. }
  assert (C1 : countb (armsStartWait m) sent = length sent).
  { unfold sent. rewrite !countb_cons.
    rewrite (countb_progressOf (armsStartWait m) m _ true)
      by (intros; cbn; apply Z.eqb_refl).
    cbn [armsStartWait StartMsg]. unfold startID. rewrite Z.eqb_refl.
    unfold progressOf. cbn [length]. rewrite length_map. reflexivity. }
  assert (C2 : countb (isStartFinish m) sent = 0).
  { unfold sent. rewrite !countb_cons.
    now rewrite (countb_progressOf (isStartFinish m) m _ false). }
  rewrite !countb_cons, C1, C2, (Hsid _ _ _ : isStartFinish m fin = true).
  unfold fin. cbn [FinishMsg armsStartWait isRunTfApply snapshotUpdate fst
                   state items edges countb filter length].
  repeat split; try exact Hu'; lia.
Qed.

Lemma runEndChange_stream (svc : EndChangeService) (m : tfApplyModel)
      (st : EndStream) :
  EndChange svc (ctx m) (oi m) (changeUuid m) = Ok st ->
  runEndChange svc m
  = (StartMsg (endingChangeSnapshot m) "ending"
       :: endProgressOf m (endStreamMsgs st),
     match endStreamErr st with
     | Some e => fatalError 0 (errWrap "failed to process end change: " e)
     | None =>
         let r := last (endStreamMsgs st) (nilEndResponse svc) in
         FinishMsg (endingChangeSnapshot m)
           (endRespState r) (endRespNumItems r) (endRespNumEdges r)
     end).
Proof.
  intros Hst. unfold runEndChange. rewrite Hst.
  destruct (endStreamErr st); reflexivity.
Qed.

Lemma countb_endProgressOf (p : Msg -> bool) (m : tfApplyModel)
      (rs : list EndChangeResponse) (b : bool) :
  (forall l i e, p (ProgressMsg (endingChangeSnapshot m) l i e) = b) ->
  countb p (endProgressOf m rs) = if b then length rs else 0.
Proof.
  intros H. unfold endProgressOf. destruct b.
  - apply countb_map_all. intros r. apply H.
  - apply countb_map_none. intros r. apply H.
Qed.

(** X13: the end-change worker sends its start event before it calls the
    service, so the event is sent even when the call fails; it uses the
    change id the model held when the worker was made; it sends one
    progress event per message of the stream, in order, and never a change
    id or a finish event; it returns a finish event with the label and
    counts of the last message when the stream closes without error, and
    otherwise a fatal error wrapping the failure. *)
Theorem end_change_worker (svc : EndChangeService) (m : tfApplyModel) :
  let out := runEndChange svc m in
  let snap := endingChangeSnapshot m in
  hd_error (fst out) = Some (StartMsg snap "ending")
  /\ (forall e,
        EndChange svc (ctx m) (oi m) (changeUuid m) = Err e ->
        out = ([StartMsg snap "ending"],
               fatalError 0 (errWrap "failed to end change: " e)))
  /\ (forall st,
        EndChange svc (ctx m) (oi m) (changeUuid m) = Ok st ->
        fst out = StartMsg snap "ending" :: endProgressOf m (endStreamMsgs st)
        /\ countb isProgressMsg (fst out) = length (endStreamMsgs st)
        /\ (endStreamErr st = None ->
            let r := last (endStreamMsgs st) (nilEndResponse svc) in
            snd out
            = FinishMsg snap (endRespState r) (endRespNumItems r)
                (endRespNumEdges r))
        /\ (forall e,
              endStreamErr st = Some e ->
              snd out
              = fatalError 0 (errWrap "failed to process end change: " e)))
  /\ countb isChangeIdentified (fst out) = 0
  /\ countb isFinishMsg (fst out) = 0
  /\ (isFinishMsg (snd out) = true \/ isFatalError (snd out) = true).
Proof.
  cbv zeta.
  destruct (EndChange svc (ctx m) (oi m) (changeUuid m)) as [st|e] eqn:Hst.
  - rewrite (runEndChange_stream svc m st Hst). cbn [fst snd].
    split; [reflexivity|]. split; [intros e He; discriminate He|].
    split; [|split; [|split]].
    + intros st' E. injection E as <-.
      split; [reflexivity|]. split.
      * rewrite countb_cons.
        now rewrite (countb_endProgressOf isProgressMsg m _ true).
      * split; [intros He; now rewrite He | intros e He; now rewrite He].
    + rewrite countb_cons.
      now rewrite (countb_endProgressOf isChangeIdentified m _ false).
    + rewrite countb_cons.
      now rewrite (countb_endProgressOf isFinishMsg m _ false).
    + destruct (endStreamErr st); [now right | now left].
  - unfold runEndChange. rewrite Hst. cbn [fst snd].
    split; [reflexivity|]. split; [intros e' E; now injection E as <-|].
    split; [intros st E; discriminate E|].
    repeat split. now right.
Qed.

(** X14: when the two snapshots have different identities and the
    end-change worker succeeds, handling the messages it sent and then the
    finish event it returned arms one receive on the ending channel per
    message sent, hands out the closure returning [delayQuitMsg] exactly
    once, asks for no further terraform run, and leaves the ending
    snapshot showing the label and counts of the last stream message. *)
Theorem end_worker_drives_loop
        (svc : EndChangeService) (m : tfApplyModel) (st : EndStream) :
  idle m ->
  startID m <> endID m ->
  EndChange svc (ctx m) (oi m) (changeUuid m) = Ok st ->
  endStreamErr st = None ->
  let out := runEndChange svc m in
  let tr := (fst out ++ [snd out])%list in
  let m' := runModel m tr in
  let r := last (endStreamMsgs st) (nilEndResponse svc) in
  state (endingChangeSnapshot m') = endRespState r
  /\ items (endingChangeSnapshot m') = endRespNumItems r
  /\ edges (endingChangeSnapshot m') = endRespNumEdges r
  /\ countb isWaitEnd (issued (history m tr)) = length (fst out)
  /\ countb isEmitDelayQuit (issued (history m tr)) = 1
  /\ countb isEmitRunTfApply (issued (history m tr)) = 0
  /\ launches (history m tr) = 0.
Proof.
  intros Hidle Hne Hst Herr. cbv zeta.
  rewrite (runEndChange_stream svc m st Hst), Herr. cbn [fst snd].
  set (r := last (endStreamMsgs st) (nilEndResponse svc)).
  set (sent := StartMsg (endingChangeSnapshot m) "ending"
                 :: endProgressOf m (endStreamMsgs st)).
  set (fin := FinishMsg (endingChangeSnapshot m)
                (endRespState r) (endRespNumItems r) (endRespNumEdges r)).
  assert (Hid : (endID m =? startID m)%Z = false)
    by (apply Z.eqb_neq; congruence).
  rewrite runModel_app. cbn [runModel].
  destruct (Update_fields (runModel m sent) fin) as [_ [_ [_ [_ F5]]]].
  rewrite F5.
  assert (R0 : countb isRunTfApply (sent ++ [fin]) = 0).
  { rewrite countb_app. unfold sent. rewrite !countb_cons.
    now rewrite (countb_endProgressOf isRunTfApply m _ false). }
  destruct (emits_over_run (sent ++ [fin]) m Hidle) as [E1 E2].
  destruct (waits_over_run m (sent ++ [fin]) Hidle) as [_ W2].
  rewrite E1, E2, (launches_none _ m R0), W2, !countb_app, !countb_cons.
  assert (C1 : countb (armsEndWait m) sent = length sent).
  { unfold sent. rewrite countb_cons.
    rewrite (countb_endProgressOf (armsEndWait m) m _ true)
      by (intros; cbn; fold (endID m); now rewrite Hid, Z.eqb_refl).
    cbn [armsEndWait StartMsg]. fold (endID m). rewrite Hid, Z.eqb_refl.
    unfold endProgressOf. cbn [length negb andb]. rewrite length_map.
    reflexivity. }
  assert (C2 : countb (isEndFinish m) sent = 0).
  { unfold sent. rewrite countb_cons.
    now rewrite (countb_endProgressOf (isEndFinish m) m _ false). }
  assert (C3 : countb (isStartFinish m) sent = 0).
  { unfold sent. rewrite countb_cons.
    now rewrite (countb_endProgressOf (isStartFinish m) m _ false). }
  rewrite C1, C2, C3.
  unfold fin. cbn [FinishMsg armsEndWait isEndFinish isStartFinish isRunTfApply
                   snapshotUpdate fst state items edges countb filter length].
  fold (endID m). rewrite Hid, Z.eqb_refl. cbn [negb andb].
  repeat split; lia.
Qed.

(** The start-change worker sends change ids, start and progress events
    on its channel and nothing else. *)
Lemma runStartChange_sent_only (p : Msg -> bool)
      (svc : ChangeService) (m : tfApplyModel) :
  (forall u, p (changeIdentifiedMsg u) = false) ->
  (forall id l, p (startSnapshotMsg id l) = false) ->
  (forall id l i e, p (progressSnapshotMsg id l i e) = false) ->
  countb p (fst (runStartChange svc m)) = 0.
Proof.
  intros H1 H2 H3. unfold runStartChange.
  destruct (resolveTicketLink svc m) as [t|e]; [|reflexivity].
  destruct (getChangeUuid svc (ctx m) (oi m) t) as [u|e]; [|reflexivity].
  assert (H0 : countb p [changeIdentifiedMsg u;
                         StartMsg (startingChangeSnapshot m) "starting"] = 0).
  { rewrite !countb_cons, H1. unfold StartMsg. now rewrite H2. }
  destruct (StartChange svc (ctx m) (oi m) u) as [st|e]; [|exact H0].
  assert (H : countb p
                ([changeIdentifiedMsg u;
                  StartMsg (startingChangeSnapshot m) "starting"]
                   ++ progressOf m (streamMsgs st)) = 0).
  { rewrite countb_app, H0.
    rewrite (countb_progressOf p m _ false); [reflexivity|].
    intros. apply H3. }
  destruct (streamErr st); exact H.
Qed.

Lemma no_finish_no_start_finish (m : tfApplyModel) (tr : list Msg) :
  countb isFinishMsg tr = 0 -> countb (isStartFinish m) tr = 0.
Proof.
  induction tr as [|x tr IH]; [reflexivity|].
  rewrite !countb_cons. intros H.
  destruct x; cbn in H |- *; try (apply IH; exact H). discriminate H.
Qed.

Lemma run_runTfApply (tr : list Msg) :
  forall m, idle m -> countb (isStartFinish m) tr = 0 ->
            runTfApply (runModel m tr) = runTfApply m.
Proof.
  induction tr as [|msg tr IH]; intros m Hidle H; [reflexivity|].
  rewrite countb_cons in H. cbn [runModel].
  destruct (idle_step m msg Hidle) as [H1 [H2 H3]].
  destruct (isStartFinish m msg) eqn:Hsf; [discriminate H|].
  rewrite IH; [| exact H1 |].
  - destruct (Update_phase m msg) as [_ P]. now rewrite P, Hsf.
  - cbn in H. rewrite <- H. unfold countb. f_equal. apply filter_ext.
    intros x. destruct x; cbn; rewrite ?H2; reflexivity.
Qed.

(** X15: when the start-change worker ends in a fatal error, whichever
    step failed, handling everything it sent and the error it returned
    hands out no closure for [runTfApplyMsg], launches no subprocess, and
    leaves the model not marked to run terraform. *)
Theorem failed_start_launches_nothing
        (svc : ChangeService) (m : tfApplyModel) :
  idle m ->
  isFatalError (snd (runStartChange svc m)) = true ->
  let out := runStartChange svc m in
  let tr := (fst out ++ [snd out])%list in
  countb isEmitRunTfApply (issued (history m tr)) = 0
  /\ launches (history m tr) = 0
  /\ runTfApply (runModel m tr) = runTfApply m.
Proof.
  intros Hidle Hfatal. cbv zeta.
  pose proof (runStartChange_sent_only isFinishMsg svc m
                (fun _ => eq_refl) (fun _ _ => eq_refl)
                (fun _ _ _ _ => eq_refl)) as Hsent.
  pose proof (runStartChange_sent_only isRunTfApply svc m
                (fun _ => eq_refl) (fun _ _ => eq_refl)
                (fun _ _ _ _ => eq_refl)) as Hsent2.
  destruct (runStartChange svc m) as [sent ret]. cbn [fst snd] in *.
  assert (Hfin : countb isFinishMsg (sent ++ [ret]) = 0).
  { rewrite countb_app, Hsent, countb_cons. now destruct ret. }
  assert (Hrun : countb isRunTfApply (sent ++ [ret]) = 0).
  { rewrite countb_app, Hsent2, countb_cons. now destruct ret. }
  destruct (emits_over_run (sent ++ [ret]) m Hidle) as [E1 _].
  rewrite E1, (launches_none _ m Hrun), (no_finish_no_start_finish m _ Hfin).
  repeat split.
  apply run_runTfApply; [exact Hidle|].
  now apply no_finish_no_start_finish.
Qed.

(** X16: when the plan was supplied, nothing waits for a plan: in a run
    without [runPlanFinishedMsg] and with at most one warm-up completion,
    the barrier closure is handed out exactly when the warm-up completion
    arrives, and running it returns [startStartingSnapshotMsg], never
    [submitPlanNowMsg]. *)
Theorem supplied_plan_starts_on_warmup
        (os : OS) (sid eid : Z) (a : list string)
        (m : tfApplyModel) (pa : list string) (tr : list Msg) :
  hasPlanSet os a = true ->
  NewTfApplyModel os sid eid a = Ok (m, pa) ->
  countb isWarmup tr <= 1 ->
  countb isPlanDone tr = 0 ->
  barrierFires (history m tr)
  = (if (0 <? countb isWarmup tr)%nat then [cmdBarrier false] else [])
  /\ map (fun c => match c with
                   | cmdBarrier np => barrierMsg np
                   | _ => foreignMsg 0
                   end) (barrierFires (history m tr))
     = (if (0 <? countb isWarmup tr)%nat then [startStartingSnapshotMsg] else []).
Proof.
  intros H Hnew Hw Hp.
  destruct (NewTfApplyModel_plan_set os sid eid a H)
    as [m0 [Hn [_ [Hneed [Hfin _]]]]].
  rewrite Hn in Hnew. injection Hnew as <- _.
  destruct (NewTfApplyModel_snapshots os sid eid a m0 _ Hn) as [_ [_ [Hrw _]]].
  rewrite (barrier_after_plan tr m0 Hfin Hrw Hw Hp), Hneed.
  split; [reflexivity|]. now destruct (0 <? countb isWarmup tr)%nat.
Qed.

End RunFacts.



(** * The map extractor *)

Section ExtractFacts.

(** ** Cutting a query at its first dot *)

Lemma splitAtDot_some (q a b : string) :
  splitAtDot q = Some (a, b) ->
  q = a ++ "." ++ b /\ splitAtDot a = None.
Proof.
  revert a b. induction q as [|c q IH]; intros a b H; [discriminate H|].
  cbn [splitAtDot] in H. destruct (Ascii.eqb c "."%char) eqn:Hc.
  - apply Ascii.eqb_eq in Hc. subst c. injection H as <- <-.
    split; reflexivity.
  - destruct (splitAtDot q) as [[a' b']|]; [|discriminate H].
    injection H as <- <-. destruct (IH a' b' eq_refl) as [Hq Ha].
    split.
    + rewrite Hq at 1. reflexivity.
    + cbn [splitAtDot]. now rewrite Hc, Ha.
Qed.

Lemma splitAtDot_join (a b : string) :
  splitAtDot a = None -> splitAtDot (a ++ "." ++ b) = Some (a, b).
Proof.
  induction a as [|c a IH]; intros H; [reflexivity|].
  cbn [splitAtDot] in H.
  change (String c a ++ "." ++ b) with (String c (a ++ "." ++ b)).
  cbn [splitAtDot]. destruct (Ascii.eqb c "."%char); [discriminate H|].
  destruct (splitAtDot a) as [[a' b']|]; [discriminate H|].
  now rewrite IH.
Qed.

(** X18: [SplitN2] cuts a query at its first dot and nowhere else: a
    query without a dot comes back whole, as a single piece; otherwise
    the two pieces joined by a dot give the query back and the first
    piece has no dot; and a dotless prefix joined to anything by a dot is
    cut exactly there. *)
Theorem SplitN2_first_dot (q : string) :
  (splitAtDot q = None /\ SplitN2 q = [q]
   \/ exists a b, SplitN2 q = [a; b] /\ q = a ++ "." ++ b
                  /\ splitAtDot a = None)
  /\ (forall a b, splitAtDot a = None -> SplitN2 (a ++ "." ++ b) = [a; b]).
Proof.
  split.
  - unfold SplitN2. destruct (splitAtDot q) as [[a b]|] eqn:H.
    + right. exists a, b. split; [reflexivity|]. now apply splitAtDot_some.
    + left. split; reflexivity.
  - intros a b Ha. unfold SplitN2. now rewrite (splitAtDot_join a b Ha).
Qed.

(** ** The record built for one query *)

(** X19: for a query string with a dot, in a document whose "type",
    "terraformScope" and "terraformMethod" are strings, the record built
    holds the type, the part of the query before its first dot as
    "query-type", the rest as "query-field", the scope, and under
    "method" the value GET for GET and LIST for SEARCH; for any other
    method the record has no "method" at all. *)
Theorem queryData_record
        (parsed : jsonDoc) (q ty a b sc tm : string) :
  mapGet "type" parsed = Some (jsonString ty) ->
  splitAtDot q = Some (a, b) ->
  mapGet "terraformScope" parsed = Some (jsonString sc) ->
  mapGet "terraformMethod" parsed = Some (jsonString tm) ->
  exists d,
    queryData parsed (jsonString q) = Some d
    /\ mapGet "type" d = Some ty
    /\ mapGet "query-type" d = Some a
    /\ mapGet "query-field" d = Some b
    /\ mapGet "scope" d = Some sc
    /\ mapGet "method" d = methodFor tm
    /\ (tm = "GET" -> mapGet "method" d = Some "GET")
    /\ (tm = "SEARCH" -> mapGet "method" d = Some "LIST")
    /\ (tm <> "GET" -> tm <> "SEARCH" -> mapGet "method" d = None).
Proof.
  intros Hty Hq Hsc Htm. unfold queryData, SplitN2.
  cbn [asString]. rewrite Hty, Hq, Hsc, Htm. cbn [asString nth_error].
  assert (Hm : (tm = "GET" -> methodFor tm = Some "GET")
               /\ (tm = "SEARCH" -> methodFor tm = Some "LIST")
               /\ (tm <> "GET" -> tm <> "SEARCH" -> methodFor tm = None)).
  { unfold methodFor. repeat split.
    - now intros ->.
    - now intros ->.
    - intros H1 H2. apply String.eqb_neq in H1, H2. now rewrite H1, H2. }
  destruct Hm as [M1 [M2 M3]].
  destruct (methodFor tm) as [v|] eqn:Hmf; eexists; (split; [reflexivity|]);
    cbn; repeat split; auto.
Qed.

(** X20: building the record panics exactly when the query is not a
    string, or has no dot, or one of "type", "terraformScope" and
    "terraformMethod" is missing from the document or is not a string. *)
Theorem queryData_panics (parsed : jsonDoc) (qAny : jsonValue) :
  queryData parsed qAny = None
  <-> asString (Some qAny) = None
      \/ (exists q, qAny = jsonString q /\ splitAtDot q = None)
      \/ asString (mapGet "type" parsed) = None
      \/ asString (mapGet "terraformScope" parsed) = None
      \/ asString (mapGet "terraformMethod" parsed) = None.
Proof.
  unfold queryData, SplitN2.
  destruct (asString (Some qAny)) as [q|] eqn:Hq.
  - assert (HqA : qAny = jsonString q)
      by (destruct qAny; try discriminate Hq; now injection Hq as ->).
    destruct (asString (mapGet "type" parsed)) as [ty|].
    + destruct (splitAtDot q) as [[a b]|] eqn:Hs; cbn [nth_error].
      * destruct (asString (mapGet "terraformScope" parsed)) as [sc|].
        -- destruct (asString (mapGet "terraformMethod" parsed)) as [tm|].
           ++ split.
              ** destruct (methodFor tm); discriminate.
              ** intros [H|[[q' [E H]]|[H|[H|H]]]]; try discriminate H.
                 rewrite HqA in E. injection E as <-. congruence.
           ++ split; [intros _; now repeat right | reflexivity].
        -- split; [intros _; right; right; right; now left | reflexivity].
      * split; [intros _; right; left; now exists q | reflexivity].
    + split; [intros _; right; right; now left | reflexivity].
  - split; [intros _; now left | reflexivity].
Qed.

(** ** The result as a whole *)

Lemma In_mapSet {V : Type} (k k' : string) (v v' : V) (d : list (string * V)) :
  In (k', v') (mapSet k v d) ->
  (k' = k /\ v' = v) \/ (k' <> k /\ In (k', v') d).
Proof.
  unfold mapSet. intros [H|H].
  - injection H as <- <-. now left.
  - apply filter_In in H. destruct H as [Hin Hk]. right. split; [|exact Hin].
    cbn in Hk. apply negb_true_iff, String.eqb_neq in Hk. congruence.
Qed.

Lemma keys_filter {V : Type} (k : string) (d : list (string * V)) :
  map fst (filter (fun p => negb (String.eqb k (fst p))) d)
  = filter (fun k' => negb (String.eqb k k')) (map fst d).
Proof.
  induction d as [|[k' v] d IH]; [reflexivity|]. cbn.
  destruct (String.eqb k k'); cbn; now rewrite IH.
Qed.

Lemma NoDup_mapSet {V : Type} (k : string) (v : V) (d : list (string * V)) :
  NoDup (map fst d) -> NoDup (map fst (mapSet k v d)).
Proof.
  intros H. unfold mapSet. cbn [map fst]. rewrite keys_filter.
  constructor.
  - intros Hin. apply filter_In in Hin. destruct Hin as [_ Hk].
    now rewrite String.eqb_refl in Hk.
  - now apply NoDup_filter.
Qed.

Lemma mapGet_In {V : Type} (k : string) (v : V) (d : list (string * V)) :
  mapGet k d = Some v -> In (k, v) d.
Proof.
  induction d as [|[k' v'] d IH]; [discriminate|]. cbn [mapGet].
  destruct (String.eqb k k') eqn:E.
  - apply String.eqb_eq in E. subst. intros H. injection H as ->. now left.
  - intros H. right. now apply IH.
Qed.

Lemma list_sum_cons (x : nat) (l : list nat) :
  list_sum (x :: l) = x + list_sum l.
Proof. reflexivity. Qed.

Lemma recordCount_mapSet (k : string) (l : list (list (string * string)))
      (r : extractResult) :
  NoDup (map fst r) ->
  recordCount (mapSet k l r) + length (resultAt k r)
  = length l + recordCount r.
Proof.
  unfold recordCount, mapSet, resultAt. cbn [map snd]. rewrite list_sum_cons.
  induction r as [|[k' l'] r IH]; intros Hnd; [cbn; lia|].
  inversion Hnd as [|? ? Hnot Hnd']; subst.
  cbn [filter fst mapGet]. destruct (String.eqb k k') eqn:E; cbn [negb].
  - apply String.eqb_eq in E. subst k'.
    assert (Hf : filter (fun p : string * list (list (string * string)) =>
                           negb (String.eqb k (fst p))) r = r).
    { clear IH Hnd Hnd'. induction r as [|[k2 l2] r IH2]; [reflexivity|].
      cbn [filter fst]. destruct (String.eqb k k2) eqn:E2.
      - apply String.eqb_eq in E2. subst. exfalso. apply Hnot. now left.
      - cbn [negb]. f_equal. apply IH2. intros Hin. apply Hnot. now right. }
    rewrite Hf. cbn [map snd]. rewrite !list_sum_cons. lia.
  - cbn [map snd]. rewrite !list_sum_cons. specialize (IH Hnd'). lia.
Qed.

Lemma queryData_query_type (parsed : jsonDoc) (qAny : jsonValue)
      (d : list (string * string)) :
  queryData parsed qAny = Some d ->
  exists a, mapGet "query-type" d = Some a.
Proof.
  unfold queryData, SplitN2.
  destruct (asString (Some qAny)) as [q|]; [|discriminate].
  destruct (asString (mapGet "type" parsed)) as [ty|]; [|discriminate].
  destruct (splitAtDot q) as [[a b]|]; cbn [nth_error]; [|discriminate].
  destruct (asString (mapGet "terraformScope" parsed)) as [sc|]; [|discriminate].
  destruct (asString (mapGet "terraformMethod" parsed)) as [tm|]; [|discriminate].
  destruct (methodFor tm); intros H; injection H as <-; exists a; reflexivity.
Qed.

Lemma addQuery_step (parsed : jsonDoc) (r r' : extractResult) (q : jsonValue) :
  grouped r ->
  addQuery parsed (Some r) q = Some r' ->
  grouped r' /\ recordCount r' = recordCount r + 1.
Proof.
  intros [Hnd Hg]. unfold addQuery.
  destruct (queryData parsed q) as [d|] eqn:Hd; [|discriminate].
  cbv zeta. intros H. injection H as <-.
  destruct (queryData_query_type parsed q d Hd) as [a Ha].
  unfold dataAt. rewrite Ha.
  split; [split|].
  - now apply NoDup_mapSet.
  - intros k l d' Hin Hd'. apply In_mapSet in Hin.
    destruct Hin as [[-> ->]|[Hk Hin]].
    + apply in_app_or in Hd'. destruct Hd' as [Hd'|[<-|[]]]; [|exact Ha].
      unfold resultAt in Hd'.
      destruct (mapGet a r) as [l0|] eqn:Hl; [|contradiction].
      apply (Hg a l0 d'); [now apply mapGet_In | exact Hd'].
    + now apply (Hg k l d').
  - pose proof (recordCount_mapSet a (resultAt a r ++ [d]) r Hnd) as Hc.
    rewrite length_app in Hc. cbn [length] in Hc. lia.
Qed.

Lemma fold_addQuery_none (parsed : jsonDoc) (qs : list jsonValue) :
  fold_left (addQuery parsed) qs None = None.
Proof. induction qs as [|q qs IH]; [reflexivity | exact IH]. Qed.

Lemma fold_addQuery (parsed : jsonDoc) (qs : list jsonValue) :
  forall r r',
    grouped r ->
    fold_left (addQuery parsed) qs (Some r) = Some r' ->
    grouped r' /\ recordCount r' = recordCount r + length qs.
Proof.
  induction qs as [|q qs IH]; intros r r' Hg H.
  - injection H as <-. split; [exact Hg | cbn; lia].
  - cbn [fold_left] in H.
    destruct (addQuery parsed (Some r) q) as [r1|] eqn:H1;
      [|rewrite fold_addQuery_none in H; discriminate H].
    destruct (addQuery_step parsed r r1 q Hg H1) as [Hg1 Hc1].
    destruct (IH r1 r' Hg1 H) as [Hg' Hc']. split; [exact Hg'|].
    cbn [length]. lia.
Qed.

Lemma addEntry_step (load : string -> option jsonDoc) (path : string)
      (r r' : extractResult) (e : dirEntry) :
  grouped r ->
  addEntry load path (Some r) e = Some r' ->
  grouped r' /\ recordCount r' = recordCount r + queriesOf load path e.
Proof.
  intros Hg. unfold addEntry, queriesOf.
  destruct (entryIsDir e); [intros H; injection H as <-; split; [exact Hg|lia]|].
  destruct (negb (HasSuffix (entryName e) ".json"));
    [intros H; injection H as <-; split; [exact Hg|lia]|].
  destruct (load (path ++ "/" ++ entryName e)) as [parsed|]; [|discriminate].
  destruct (mapGet "terraformQuery" parsed) as [v|];
    [|intros H; injection H as <-; split; [exact Hg|lia]].
  destruct v; try discriminate. now apply fold_addQuery.
Qed.

Lemma fold_addEntry (load : string -> option jsonDoc) (path : string)
      (es : list dirEntry) :
  forall r r',
    grouped r ->
    fold_left (addEntry load path) es (Some r) = Some r' ->
    grouped r'
    /\ recordCount r' = recordCount r + list_sum (map (queriesOf load path) es).
Proof.
  induction es as [|e es IH]; intros r r' Hg H.
  - injection H as <-. split; [exact Hg | cbn; lia].
  - cbn [fold_left] in H.
    destruct (addEntry load path (Some r) e) as [r1|] eqn:H1.
    + destruct (addEntry_step load path r r1 e Hg H1) as [Hg1 Hc1].
      destruct (IH r1 r' Hg1 H) as [Hg' Hc']. split; [exact Hg'|].
      cbn [map]. rewrite list_sum_cons. lia.
    + exfalso. clear -H. induction es as [|e' es IH']; [discriminate H|].
      apply IH'. exact H.
Qed.

(** X21: when [dataFromFiles] returns, every key of the result occurs
    once, every record is filed under the key that is its own
    "query-type", and the result holds exactly one record per query of
    the documents read: directories, files not named "*.json" and
    documents without "terraformQuery" add nothing. *)
Theorem dataFromFiles_grouped
        (readDir : string -> option (list dirEntry))
        (load : string -> option jsonDoc) (path : string)
        (result : extractResult) :
  dataFromFiles readDir load path = Some result ->
  exists entries,
    readDir path = Some entries
    /\ NoDup (map fst result)
    /\ (forall k l d, In (k, l) result -> In d l ->
                      mapGet "query-type" d = Some k)
    /\ recordCount result = list_sum (map (queriesOf load path) entries).
Proof.
  unfold dataFromFiles. destruct (readDir path) as [entries|]; [|discriminate].
  intros H. exists entries. split; [reflexivity|].
  assert (Hg0 : grouped []) by (split; [constructor | intros k l d []]).
  destruct (fold_addEntry load path entries [] result Hg0 H) as [[Hnd Hg] Hc].
  repeat split; assumption.
Qed.

End ExtractFacts.

(** * The further properties at work *)

Lemma noApproveFlag_tmp : noApproveFlag ["/tmp/overmind-plan1"].
Proof. constructor; [reflexivity | constructor]. Defined.

Lemma approval_decided_by_last_flag_witness :
  needApproval
    (modelOf (NewTfApplyModel demoOS 1 2
                ["-auto-approve"; "-auto-approve=false"])) = true
  /\ needApproval demoFresh = false.
Proof.
  split.
  - exact (proj2 (approval_decided_by_last_flag demoOS 1 2
                    ["-auto-approve"; "-auto-approve=false"]
                    "/tmp/overmind-plan1" _ _ eq_refl eq_refl eq_refl)
                 ["-auto-approve"] "-auto-approve=false"
                 ["/tmp/overmind-plan1"] false eq_refl eq_refl
                 noApproveFlag_tmp).
  - exact (proj2 (approval_decided_by_last_flag demoOS 1 2 ["-auto-approve"]
                    "/tmp/overmind-plan1" _ _ eq_refl eq_refl eq_refl)
                 [] "-auto-approve" ["/tmp/overmind-plan1"] true
                 eq_refl eq_refl noApproveFlag_tmp).
Defined.

Lemma plan_file_is_last_argument_witness :
  last (args demoFresh) "" = "/tmp/overmind-plan1"
  /\ exists c, tfApplyExecCmd demoReady = Some c
               /\ last (cmdArgs c) "" = "tfplan".
Proof.
  split.
  - exact (proj1 (proj2 (plan_file_is_last_argument demoOS 1 2
                           ["-auto-approve"] _ _ [] eq_refl))).
  - destruct (plan_file_is_last_argument demoOS 1 2 ["tfplan"] _ _
                [loadSourcesConfigMsg 1%N "app"] eq_refl)
      as [_ [_ [_ H]]].
    eexists. split; [reflexivity|].
    exact (proj2 (proj2 (H _ eq_refl))).
Defined.

Lemma plan_generated_without_file_witness :
  (exists m, NewTfApplyModel demoOS 1 2 [] = Ok (m, ["plan"; "-out"; "/tmp/overmind-plan1"])
             /\ needPlan m = true)
  /\ (exists m pa, NewTfApplyModel demoOS 1 2 ["dir"] = Ok (m, pa)
                   /\ args m = ["apply"; "dir"; "/tmp/overmind-plan1"])
  /\ (exists m pa, NewTfApplyModel demoOS 1 2 ["missing"] = Ok (m, pa)
                   /\ planFile m = "/tmp/overmind-plan1").
Proof.
  split; [|split].
  - destruct (plan_generated_without_file demoOS 1 2 [] "/tmp/overmind-plan1"
                (or_introl eq_refl) eq_refl) as [m [H1 [H2 _]]].
    exists m. split; [exact H1 | exact H2].
  - destruct (plan_generated_without_file demoOS 1 2 ["dir"]
                "/tmp/overmind-plan1" (or_intror (or_introl eq_refl)) eq_refl)
      as [m [H1 [_ [_ [_ [H5 _]]]]]].
    eexists m, _. split; [exact H1 | exact H5].
  - destruct (plan_generated_without_file demoOS 1 2 ["missing"]
                "/tmp/overmind-plan1" (or_intror (or_intror eq_refl)) eq_refl)
      as [m [H1 [_ [_ [H4 _]]]]].
    eexists m, _. split; [exact H1 | exact H4].
Defined.

Lemma value_flags_block_plan_witness :
  (exists m pa, NewTfApplyModel demoOS 1 2 ["-var"; "x=1"; "tfplan"] = Ok (m, pa)
                /\ needPlan m = false /\ planFile m = "tfplan")
  /\ (exists m pa, NewTfApplyModel demoOS 1 2 ["-state=old"; "tfplan"] = Ok (m, pa)
                   /\ needPlan m = true
                   /\ args m = ["apply"; "-state=old"; "tfplan";
                                "/tmp/overmind-plan1"]).
Proof.
  split.
  - exact (proj1 (value_flags_block_plan demoOS 1 2 ["-var"] "x=1" "tfplan"
                    eq_refl) eq_refl).
  - destruct (proj2 (value_flags_block_plan demoOS 1 2 [] "-state=old" "tfplan"
                       eq_refl)
                    "-state" "old" "/tmp/overmind-plan1"
                    (or_intror (or_intror (or_introl eq_refl)))
                    (or_intror eq_refl) eq_refl)
      as [m [pa [H1 [H2 [_ H4]]]]].
    exists m, pa. repeat split; assumption.
Defined.

Lemma launched_command_after_run_witness :
  exists c,
    Update demoReady runTfApplyMsg
    = (demoReady, [cmdExecProcess c tfApplyCallback])
    /\ cmdArgs c = ["terraform"; "apply"; "tfplan"]
    /\ cmdCtx c = 1%N.
Proof.
  assert (Hctx : fst (1%N, "app") <> nilContext) by discriminate.
  destruct (proj1 (launched_command_after_run demoWithPlan
                     [loadSourcesConfigMsg 1%N "app"]) Hctx)
    as [c [H1 [_ [H3 H4]]]].
  exists c. repeat split; assumption.
Defined.

Lemma snapshot_identities_stable_witness :
  startID (runModel demoWithPlan happyRun) = 1%Z
  /\ endID (runModel demoWithPlan happyRun) = 2%Z.
Proof.
  destruct (snapshot_identities_stable demoOS 1 2 ["tfplan"] _ _ happyRun
              eq_refl) as [_ [_ [H1 H2]]].
  split; [exact H1 | exact H2].
Defined.

Lemma idle_demoWithPlan : idle demoWithPlan.
Proof. split; discriminate. Defined.

Lemma receives_armed_per_message_witness :
  countb isWaitStart (issued (history demoWithPlan happyRun)) = 5
  /\ countb isWaitEnd (issued (history demoWithPlan happyRun)) = 3.
Proof.
  exact (receives_armed_per_message demoWithPlan happyRun idle_demoWithPlan).
Defined.

Lemma start_worker_drives_loop_witness :
  let out := runStartChange demoService demoWithPlan in
  let tr := (fst out ++ [snd out])%list in
  changeUuid (runModel demoWithPlan tr) = 7%N
  /\ runTfApply (runModel demoWithPlan tr) = true
  /\ countb isEmitRunTfApply (issued (history demoWithPlan tr)) = 1.
Proof.
  destruct (start_worker_drives_loop demoService demoWithPlan
              "https://tickets/1" 7%N demoStream idle_demoWithPlan
              eq_refl eq_refl eq_refl eq_refl)
    as [H1 [_ [H3 [_ [_ [_ [_ [H8 _]]]]]]]].
  cbv zeta. split; [exact H1 | split; [exact H3 | exact H8]].
Defined.

Lemma end_worker_drives_loop_witness :
  let out := runEndChange demoEndService demoWithPlan in
  let tr := (fst out ++ [snd out])%list in
  countb isEmitDelayQuit (issued (history demoWithPlan tr)) = 1
  /\ countb isEmitRunTfApply (issued (history demoWithPlan tr)) = 0.
Proof.
  assert (Hne : startID demoWithPlan <> endID demoWithPlan) by discriminate.
  destruct (end_worker_drives_loop demoEndService demoWithPlan
              (mkEndStream [mkEndResponse "STATE_SAVING_SNAPSHOT" 5 3] None)
              idle_demoWithPlan Hne eq_refl eq_refl)
    as [_ [_ [_ [_ [H5 [H6 _]]]]]].
  cbv zeta. split; [exact H5 | exact H6].
Defined.

Lemma failed_start_launches_nothing_witness :
  let out := @runStartChange bareCollaborators failingService bareModel in
  let tr := (fst out ++ [snd out])%list in
  snd out = fatalError 0 (errNew "no ticket link in plan")
  /\ @launches bareCollaborators (@history bareCollaborators bareModel tr) = 0.
Proof.
  cbv zeta. split; [reflexivity|].
  assert (Hidle : @idle bareCollaborators bareModel) by (split; discriminate).
  exact (proj1 (proj2 (@failed_start_launches_nothing bareCollaborators
                         failingService bareModel Hidle eq_refl))).
Defined.

Lemma supplied_plan_starts_on_warmup_witness :
  barrierFires (history demoWithPlan [WindowSizeMsg 80 24; revlinkWarmupFinishedMsg])
  = [cmdBarrier false].
Proof.
  exact (proj1 (supplied_plan_starts_on_warmup demoOS 1 2 ["tfplan"] _ _
                  [WindowSizeMsg 80 24; revlinkWarmupFinishedMsg]
                  eq_refl eq_refl (le_n 1) eq_refl)).
Defined.

Lemma queryData_record_witness :
  exists d,
    queryData demoDoc (jsonString "aws_spot.tags.name") = Some d
    /\ mapGet "query-type" d = Some "aws_spot"
    /\ mapGet "query-field" d = Some "tags.name"
    /\ mapGet "method" d = Some "LIST".
Proof.
  destruct (queryData_record demoDoc "aws_spot.tags.name" "ec2-instance"
              "aws_spot" "tags.name" "*" "SEARCH"
              eq_refl eq_refl eq_refl eq_refl)
    as [d [H1 [_ [H3 [H4 [_ [_ [_ [H8 _]]]]]]]]].
  exists d. repeat split; try assumption. exact (H8 eq_refl).
Defined.

Lemma dataFromFiles_grouped_witness :
  exists result,
    dataFromFiles demoReadDir demoLoad "docs" = Some result
    /\ recordCount result = 2
    /\ NoDup (map fst result).
Proof.
  destruct (dataFromFiles demoReadDir demoLoad "docs") as [result|] eqn:E;
    [|discriminate E].
  destruct (dataFromFiles_grouped demoReadDir demoLoad "docs" result E)
    as [entries [He [Hnd [_ Hc]]]].
  injection He as <-. exists result. repeat split; assumption.
Defined.
